(** * examples/rl-training/main.py

    A shallow embedding of the reinforcement-learning example: the
    generated training script, the fallback command helpers and the
    orchestration routine [main], run against an arbitrary sandbox SDK.

    The SDK ([opensandbox.Sandbox]) is an external collaborator.  It is
    modelled as a record of handlers over a state of its own; every call
    may return a value or raise.  A run of the program yields its result,
    the collaborator's final state and the list of observable events (SDK
    calls with their outcome, and printed lines). *)

From stdpp Require Import base strings gmap list.


(** ** Python string helpers *)

Module Py.

(** The double quote and the line feed, as one-character strings. *)
Definition dq : string := String (Ascii.ascii_of_nat 34) EmptyString.
Definition nl : string := String (Ascii.ascii_of_nat 10) EmptyString.

(** [q s] is the Python source text of the string literal ["s"]. *)
Definition q (s : string) : string := dq +:+ s +:+ dq.

(** The characters of [ \t], the indentation class of [textwrap]. *)
Definition is_blank (c : Ascii.ascii) : bool :=
  bool_decide (Ascii.nat_of_ascii c = 32%nat) || bool_decide (Ascii.nat_of_ascii c = 9%nat).

(** [str.isspace] on the ASCII range only: the characters 9 to 13 and 28
    to 32.  Whitespace outside ASCII (U+0085, U+00A0, ...) is not
    covered; the text of the script is ASCII. *)
Definition isspace (c : Ascii.ascii) : bool :=
  let n := Ascii.nat_of_ascii c in
  bool_decide (9 ≤ n ≤ 13)%nat || bool_decide (28 ≤ n ≤ 32)%nat.

(** [s.lstrip()] *)
Fixpoint lstrip (s : string) : string :=
  match s with
  | EmptyString => EmptyString
  | String c s' => if isspace c then lstrip s' else s
  end.

(** [s.split("\n")]: the lines of [s], without their terminators. *)
Fixpoint split_lines (s : string) : list string :=
  match s with
  | EmptyString => [EmptyString]
  | String c s' =>
      if bool_decide (Ascii.nat_of_ascii c = 10%nat) then EmptyString :: split_lines s'
      else match split_lines s' with
           | [] => [String c EmptyString]
           | l :: ls => String c l :: ls
           end
  end.

(** ["\n".join(lines)] *)
Definition join_lines (lines : list string) : string := String.concat nl lines.

Fixpoint all_blank (s : string) : bool :=
  match s with
  | EmptyString => true
  | String c s' => is_blank c && all_blank s'
  end.

(** The leading run of [ \t] of a line. *)
Fixpoint leading_blank (s : string) : string :=
  match s with
  | EmptyString => EmptyString
  | String c s' => if is_blank c then String c (leading_blank s') else EmptyString
  end.

(** [margin[:i]] for the first index [i] where [margin] and [indent]
    differ. *)
Fixpoint common_prefix (margin indent : string) : string :=
  match margin, indent with
  | String x m', String y i' =>
      if bool_decide (x = y) then String x (common_prefix m' i') else EmptyString
  | _, _ => EmptyString
  end.

(** One round of the margin loop of [textwrap.dedent]. *)
Definition margin_step (margin : option string) (indent : string) : option string :=
  match margin with
  | None => Some indent
  | Some m =>
      if String.prefix m indent then Some m
      else if String.prefix indent m then Some indent
      else Some (common_prefix m indent)
  end.

(** [s] without [margin] in front, when it starts with it. *)
Definition remove_prefix (margin s : string) : string :=
  if String.prefix margin s
  then String.substring (String.length margin) (String.length s - String.length margin) s
  else s.

(** [textwrap.dedent(text)], as CPython has it up to 3.13: lines of
    spaces and tabs only become empty, the margin is the longest common
    run of leading blanks of the other non-empty lines, and it is removed
    from every line starting with it.  A line holding only other
    whitespace (form feed, carriage return, ...) is kept here, where
    CPython 3.14 empties it; the literal of the script has no such
    line. *)
Definition dedent (text : string) : string :=
  let lines := (λ l, if all_blank l then EmptyString else l) <$> split_lines text in
  let indents := leading_blank <$> filter (λ l, l ≠ EmptyString) lines in
  match foldl margin_step None indents with
  | Some (String c m) => join_lines (remove_prefix (String c m) <$> lines)
  | _ => join_lines lines
  end.

(** [needle in s] *)
Fixpoint contains (needle s : string) : bool :=
  String.prefix needle s ||
  match s with
  | EmptyString => false
  | String _ s' => contains needle s'
  end.

(** The number of positions of [s] where [needle] starts. *)
Fixpoint occurrences (needle s : string) : nat :=
  match s with
  | EmptyString => 0%nat
  | String _ s' =>
      ((if String.prefix needle s then 1 else 0) + occurrences needle s')%nat
  end.

End Py.

(** ** The generated training script *)

(** The lines of the triple-quoted literal of [_training_script], as they
    stand in the source: the literal opens with a line break and closes
    after the indentation of its last line. *)
Definition training_script_literal : list string :=
  [ "";
    "        import json";
    "        import os";
    "";
    "        import gymnasium as gym";
    "        from stable_baselines3 import DQN";
    "        from stable_baselines3.common.evaluation import evaluate_policy";
    "";
    "        timesteps = int(os.getenv(" +:+ Py.q "RL_TIMESTEPS" +:+ ", " +:+ Py.q "5000" +:+ "))";
    "        tensorboard_log = os.getenv(" +:+ Py.q "RL_TENSORBOARD_LOG" +:+ ", " +:+ Py.q "runs" +:+ ")";
    "";
    "        env = gym.make(" +:+ Py.q "CartPole-v1" +:+ ")";
    "        model = DQN(";
    "            " +:+ Py.q "MlpPolicy" +:+ ",";
    "            env,";
    "            verbose=1,";
    "            tensorboard_log=tensorboard_log,";
    "            learning_rate=1e-3,";
    "            buffer_size=10000,";
    "            learning_starts=1000,";
    "            batch_size=32,";
    "            train_freq=4,";
    "            gradient_steps=1,";
    "        )";
    "";
    "        model.learn(total_timesteps=timesteps)";
    "";
    "        os.makedirs(" +:+ Py.q "checkpoints" +:+ ", exist_ok=True)";
    "        checkpoint_path = " +:+ Py.q "checkpoints/cartpole_dqn";
    "        model.save(checkpoint_path)";
    "";
    "        mean_reward, std_reward = evaluate_policy(model, env, n_eval_episodes=5)";
    "        summary = {";
    "            " +:+ Py.q "timesteps" +:+ ": timesteps,";
    "            " +:+ Py.q "mean_reward" +:+ ": float(mean_reward),";
    "            " +:+ Py.q "std_reward" +:+ ": float(std_reward),";
    "            " +:+ Py.q "checkpoint_path" +:+ ": f" +:+ Py.q "{checkpoint_path}.zip" +:+ ",";
    "        }";
    "        with open(" +:+ Py.q "training_summary.json" +:+ ", " +:+ Py.q "w"
      +:+ ", encoding=" +:+ Py.q "utf-8" +:+ ") as handle:";
    "            json.dump(summary, handle, indent=2)";
    "";
    "        print(" +:+ Py.q "Training summary:" +:+ ", summary)";
    "        env.close()";
    "        " ].

(** [_training_script()]: the literal, dedented, without its leading line
    break.  The function takes no argument and reads nothing. *)
Definition _training_script (_ : unit) : string :=
  Py.lstrip (Py.dedent (Py.join_lines training_script_literal)).

(** ** Data of the SDK and of the host *)

(** One captured output line ([msg.text]). *)
Record OutputMessage := { text : string }.

(** [execution.logs] *)
Record ExecutionLogs := {
  stdout : list OutputMessage;
  stderr : list OutputMessage
}.

(** [execution.error], when there is one. *)
Record ExecutionError := {
  name : string;
  value : string
}.

(** The result of [sandbox.commands.run]: the fields the program reads. *)
Record Execution := {
  logs : ExecutionLogs;
  error : option ExecutionError
}.

(** A raised Python exception: whether its class derives from
    [Exception] (what [except Exception] catches), and [str(exc)]. *)
Record PyExc := {
  is_Exception : bool;
  exc_str : string
}.

(** The outcome of a call: a value, or a raised exception. *)
Inductive Result (A : Type) : Type :=
  | Ok (a : A)
  | Raise (exc : PyExc).
Arguments Ok {A} a.
Arguments Raise {A} exc.

(** [timedelta], in seconds. *)
Record timedelta := { total_seconds : Z }.
Definition timedelta_minutes (minutes : Z) : timedelta :=
  {| total_seconds := 60 * minutes |}.

(** [ConnectionConfig(domain=..., api_key=..., request_timeout=...)] *)
Record ConnectionConfig := {
  domain : string;
  api_key : option string;
  request_timeout : timedelta
}.

(** What the program reads on the host: the process environment and the
    file [requirements.txt] next to the program (reading it may raise). *)
Record Host := {
  environ : gmap string string;
  requirements_txt : Result string
}.

(** [os.getenv(key)] and [os.getenv(key, default)] *)
Definition getenv (host : Host) (key : string) : option string :=
  environ host !! key.
Definition getenv_default (host : Host) (key fallback : string) : string :=
  default fallback (environ host !! key).

(** Observable events, in program order.  An SDK call is recorded with its
    arguments and its outcome; [EvCreate] keeps only whether a handle was
    returned. *)
Inductive Event : Type :=
  | EvCreate (image : string) (config : ConnectionConfig)
             (env : gmap string string) (r : Result unit)
  | EvEnter (r : Result unit)
  | EvExit (pending : option PyExc) (r : Result bool)
  | EvWriteFile (path content : string) (r : Result unit)
  | EvReadFile (path : string) (r : Result string)
  | EvRun (command : string) (r : Result Execution)
  | EvKill (r : Result unit)
  | EvPrint (line : string).

(** Equality of events is decidable, so membership in a trace can be
    computed. *)
#[global] Instance OutputMessage_eq_dec : EqDecision OutputMessage.
Proof. solve_decision. Defined.
#[global] Instance ExecutionLogs_eq_dec : EqDecision ExecutionLogs.
Proof. solve_decision. Defined.
#[global] Instance ExecutionError_eq_dec : EqDecision ExecutionError.
Proof. solve_decision. Defined.
#[global] Instance Execution_eq_dec : EqDecision Execution.
Proof. solve_decision. Defined.
#[global] Instance PyExc_eq_dec : EqDecision PyExc.
Proof. solve_decision. Defined.
#[global] Instance Result_eq_dec {A} `{EqDecision A} : EqDecision (Result A).
Proof. solve_decision. Defined.
#[global] Instance timedelta_eq_dec : EqDecision timedelta.
Proof. solve_decision. Defined.
#[global] Instance ConnectionConfig_eq_dec : EqDecision ConnectionConfig.
Proof. solve_decision. Defined.
#[global] Instance Event_eq_dec : EqDecision Event.
Proof. solve_decision. Defined.

(** The SDK: a sandbox factory, the scope protocol of [async with], file
    write and read, command execution and teardown, over a state [W] of
    the collaborator and sandbox handles [H]. *)
Record Sdk (W H : Type) : Type := {
  Sandbox_create : string → ConnectionConfig → gmap string string → W → Result H * W;
  aenter : H → W → Result unit * W;
  aexit : H → option PyExc → W → Result bool * W;
  files_write_file : H → string → string → W → Result unit * W;
  files_read_file : H → string → W → Result string * W;
  commands_run : H → string → W → Result Execution * W;
  kill : H → W → Result unit * W
}.
Arguments Sandbox_create {W H}.
Arguments aenter {W H}.
Arguments aexit {W H}.
Arguments files_write_file {W H}.
Arguments files_read_file {W H}.
Arguments commands_run {W H}.
Arguments kill {W H}.

(** ** The monad of awaited calls *)

(** A computation takes the collaborator's state and gives its outcome,
    the new state and the events it produced. *)
Definition M (W A : Type) : Type := W → Result A * W * list Event.

Definition ret {W A} (a : A) : M W A := λ w, (Ok a, w, []).

Definition bind {W A B} (m : M W A) (k : A → M W B) : M W B := λ w,
  match m w with
  | (Ok a, w1, t1) => let '(r, w2, t2) := k a w1 in (r, w2, t1 ++ t2)
  | (Raise exc, w1, t1) => (Raise exc, w1, t1)
  end.

#[global] Instance M_ret {W} : MRet (M W) := @ret W.
#[global] Instance M_bind {W} : MBind (M W) := λ A B k m, bind m k.

(** An SDK call, recorded by [ev]. *)
Definition call {W A} (ev : Result A → Event) (h : W → Result A * W) : M W A := λ w,
  let '(r, w1) := h w in (r, w1, [ev r]).

(** [raise] of what a host-side read gave. *)
Definition of_result {W A} (r : Result A) : M W A := λ w, (r, w, []).

(** [print(line)] *)
Definition print {W} (line : string) : M W unit := λ w, (Ok (), w, [EvPrint line]).

(** [for x in xs: body(x)] *)
Fixpoint for_each {W A} (xs : list A) (body : A → M W unit) : M W unit :=
  match xs with
  | [] => ret ()
  | x :: xs' => body x ;; for_each xs' body
  end.

(** [try: a = body / except Exception as exc: handler(exc) / else:
    orelse(a)].  Only instances of [Exception] are caught, and only those
    raised by [body]. *)
Definition try_except {W A B} (body : M W A) (handler : PyExc → M W B)
    (orelse : A → M W B) : M W B := λ w,
  match body w with
  | (Ok a, w1, t1) => let '(r, w2, t2) := orelse a w1 in (r, w2, t1 ++ t2)
  | (Raise exc, w1, t1) =>
      if is_Exception exc
      then let '(r, w2, t2) := handler exc w1 in (r, w2, t1 ++ t2)
      else (Raise exc, w1, t1)
  end.

Definition void {A} (r : Result A) : Result unit :=
  match r with Ok _ => Ok () | Raise exc => Raise exc end.

Definition pending_of {A} (r : Result A) : option PyExc :=
  match r with Ok _ => None | Raise exc => Some exc end.

(** ** The program *)

Section Program.

Context {W H : Type} (sdk : Sdk W H).

(** What the [async with] statement gives once the scope is left:
    [__aexit__] raising wins; otherwise a pending exception of the body
    is raised again unless [__aexit__] returned a true value. *)
Definition scope_result (left : Result bool) (body : Result unit) : Result unit :=
  match left, body with
  | Raise exc, _ => Raise exc
  | Ok _, Ok _ => Ok ()
  | Ok swallow, Raise exc => if swallow then Ok () else Raise exc
  end.

(** [async with sandbox: body].  The scope is entered, the body runs,
    and the scope is left whatever the body did: [__aexit__] receives
    the pending exception. *)
Definition async_with (sandbox : H) (body : M W unit) : M W unit := λ w,
  match aenter sdk sandbox w with
  | (Raise exc, w1) => (Raise exc, w1, [EvEnter (Raise exc)])
  | (Ok _, w1) =>
      let '(r, w2, t) := body w1 in
      let '(x, w3) := aexit sdk sandbox (pending_of r) w2 in
      (scope_result x r, w3, EvEnter (Ok ()) :: t ++ [EvExit (pending_of r) x])
  end.

(** [_load_requirements()] *)
Definition _load_requirements (host : Host) : M W string :=
  of_result (requirements_txt host).

(** [_print_execution_logs(execution)] *)
Definition _print_execution_logs (execution : Execution) : M W unit :=
  for_each (stdout (logs execution)) (λ msg, print ("[stdout] " +:+ text msg)) ;;
  for_each (stderr (logs execution)) (λ msg, print ("[stderr] " +:+ text msg)) ;;
  match error execution with
  | Some err => print ("[error] " +:+ name err +:+ ": " +:+ value err)
  | None => ret ()
  end.

(** [_execution_failed(execution)]: [execution.error is not None]. *)
Definition _execution_failed (execution : Execution) : bool :=
  match error execution with
  | None => false
  | Some _ => true
  end.

(** [_run_command(sandbox, command)] *)
Definition _run_command (sandbox : H) (command : string) : M W bool :=
  execution ← call (EvRun command) (commands_run sdk sandbox command);
  _print_execution_logs execution ;;
  ret (negb (_execution_failed execution)).

(** [_with_python_env(command)] *)
Definition _with_python_env (command : string) : string :=
  "bash -lc '"
  +:+ "source /opt/opensandbox/code-interpreter-env.sh "
  +:+ "python ${PYTHON_VERSION:-3.14} >/dev/null "
  +:+ "&& "
  +:+ command
  +:+ "'".

(** The loop both helpers end with:
    [for command in commands: if await _run_command(sandbox, command):
    return True], then [return False]. *)
Fixpoint try_in_order (sandbox : H) (commands : list string) : M W bool :=
  match commands with
  | [] => ret false
  | command :: rest =>
      ok ← _run_command sandbox command;
      if (ok : bool) then ret true else try_in_order sandbox rest
  end.

Definition bootstrap_commands : list string :=
  [ _with_python_env "python3 -m pip --version";
    _with_python_env "python3 -m ensurepip --upgrade";
    "apt-get update && apt-get install -y python3-pip";
    "apk add --no-cache py3-pip" ].

(** [_ensure_pip(sandbox)] *)
Definition _ensure_pip (sandbox : H) : M W bool :=
  try_in_order sandbox bootstrap_commands.

Definition install_commands : list string :=
  [ _with_python_env
      "python3 -m pip install --no-cache-dir --break-system-packages -r requirements.txt";
    "pip3 install --no-cache-dir -r requirements.txt";
    "pip install --no-cache-dir -r requirements.txt" ].

(** [_install_requirements(sandbox)] *)
Definition _install_requirements (sandbox : H) : M W bool :=
  try_in_order sandbox install_commands.

(** The command of the training step. *)
Definition train_command : string := _with_python_env "python3 train.py".

(** The mapping [{"RL_TIMESTEPS": timesteps}] given to [Sandbox.create]. *)
Definition sandbox_env (host : Host) : gmap string string :=
  {[ "RL_TIMESTEPS" := getenv_default host "RL_TIMESTEPS" "5000" ]}.

Definition sandbox_image (host : Host) : string :=
  getenv_default host "SANDBOX_IMAGE" "opensandbox/code-interpreter:latest".

Definition connection_config (host : Host) : ConnectionConfig :=
  {| domain := getenv_default host "SANDBOX_DOMAIN" "localhost:8080";
     api_key := getenv host "SANDBOX_API_KEY";
     request_timeout := timedelta_minutes 10 |}.

(** [main()].  A [return] inside the scope ends the body, so each guard
    is an [if] whose other branch is the rest of the body. *)
Definition main (host : Host) : M W unit :=
  let image := sandbox_image host in
  let config := connection_config host in
  sandbox ← call (λ r, EvCreate image config (sandbox_env host) (void r))
                 (Sandbox_create sdk image config (sandbox_env host));
  async_with sandbox (
    requirements ← _load_requirements host;
    call (EvWriteFile "requirements.txt" requirements)
         (files_write_file sdk sandbox "requirements.txt" requirements) ;;
    pip_ok ← _ensure_pip sandbox;
    if negb pip_ok then print "Failed to bootstrap pip inside the sandbox." else
    install_ok ← _install_requirements sandbox;
    if negb install_ok then print "Failed to install RL dependencies inside the sandbox." else
    call (EvWriteFile "train.py" (_training_script ()))
         (files_write_file sdk sandbox "train.py" (_training_script ())) ;;
    train_exec ← call (EvRun train_command) (commands_run sdk sandbox train_command);
    _print_execution_logs train_exec ;;
    if _execution_failed train_exec then print "Training failed inside the sandbox." else
    try_except
      (call (EvReadFile "training_summary.json")
            (files_read_file sdk sandbox "training_summary.json"))
      (λ exc, print (Py.nl +:+ "Failed to read training summary: " +:+ exc_str exc))
      (λ summary, print (Py.nl +:+ "=== Training summary ===") ;; print summary) ;;
    call EvKill (kill sdk sandbox)).

End Program.

(** ** Sample collaborators

    Mock sandboxes in the style of a test double: the state is the file
    space written so far, a command fails when [fails] says so, and
    reading the summary gives [summary]. *)

Module Mock.

Definition files : Type := list (string * string).

Definition failure : ExecutionError :=
  {| name := "CommandExecError"; value := "exit status 1" |}.

Definition execution (failed : bool) : Execution :=
  {| logs := {| stdout := [ {| text := "out" |} ];
                stderr := if failed then [ {| text := "err" |} ] else [] |};
     error := if failed then Some failure else None |}.

Definition sdk (fails : string → bool) (summary : Result string) : Sdk files unit :=
  {| Sandbox_create := λ _ _ _ w, (Ok (), w);
     aenter := λ _ w, (Ok (), w);
     aexit := λ _ _ w, (Ok false, w);
     files_write_file := λ _ path content w, (Ok (), (path, content) :: w);
     files_read_file := λ _ _ w, (summary, w);
     commands_run := λ _ command w, (Ok (execution (fails command)), w);
     kill := λ _ w, (Ok (), w) |}.

(** A host with [RL_TIMESTEPS] set or not, and a one-line manifest. *)
Definition host (timesteps : option string) : Host :=
  {| environ := match timesteps with
                | Some v => {[ "RL_TIMESTEPS" := v ]}
                | None => ∅
                end;
     requirements_txt := Ok "stable-baselines3" |}.

Definition read_error : PyExc :=
  {| is_Exception := true; exc_str := "file not found" |}.

Definition cancelled : PyExc :=
  {| is_Exception := false; exc_str := "CancelledError" |}.

End Mock.

(** ** Reading traces *)

(** The events a computation produced, and its outcome. *)
Definition trace_of {W A} (x : Result A * W * list Event) : list Event := x.2.
Definition outcome_of {W A} (x : Result A * W * list Event) : Result A := x.1.1.

(** The commands run, in order. *)
Fixpoint runs_of (t : list Event) : list string :=
  match t with
  | [] => []
  | EvRun command _ :: t' => command :: runs_of t'
  | _ :: t' => runs_of t'
  end.

(** What [_print_execution_logs] prints for an execution. *)
Definition log_events (execution : Execution) : list Event :=
  ((λ msg, EvPrint ("[stdout] " +:+ text msg)) <$> stdout (logs execution))
  ++ ((λ msg, EvPrint ("[stderr] " +:+ text msg)) <$> stderr (logs execution))
  ++ match error execution with
     | Some err => [EvPrint ("[error] " +:+ name err +:+ ": " +:+ value err)]
     | None => []
     end.

(** The text whose presence in a script makes [v] the default of
    [RL_TIMESTEPS]: [os.getenv("RL_TIMESTEPS", "v")]. *)
Definition getenv_timesteps (v : string) : string :=
  "os.getenv(" +:+ Py.q "RL_TIMESTEPS" +:+ ", " +:+ Py.q v +:+ ")".

Definition embeds_default (v script : string) : bool :=
  Py.contains (getenv_timesteps v) script.

(** ** Properties of runs *)

(** Every command of the list, run in turn from state [w], gives a
    result that carries an error. *)
Fixpoint every_run_fails {W H} (sdk : Sdk W H) (sandbox : H) (commands : list string)
    (w : W) : Prop :=
  match commands with
  | [] => True
  | command :: rest =>
      ∃ execution w1,
        commands_run sdk sandbox command w = (Ok execution, w1)
        ∧ error execution ≠ None
        ∧ every_run_fails sdk sandbox rest w1
  end.

(** The file at [path] is written (the write returned) before any
    bootstrap command is attempted. *)
Definition written_before_bootstrap (path : string) (t : list Event) : Prop :=
  ∀ pre command r post,
    t = pre ++ EvRun command r :: post →
    command ∈ bootstrap_commands →
    ∃ content, EvWriteFile path content (Ok ()) ∈ pre.

(** The script written to [train.py] takes its default of [RL_TIMESTEPS]
    from the host: ["5000"] when the variable is unset, ["1000"] when it
    is set to 1000. *)
Definition script_follows_host (host : Host) (t : list Event) : Prop :=
  ∀ content r,
    EvWriteFile "train.py" content r ∈ t →
    (environ host !! "RL_TIMESTEPS" = None → embeds_default "5000" content = true)
    ∧ (environ host !! "RL_TIMESTEPS" = Some "1000" → embeds_default "1000" content = true).

(** A read of [training_summary.json] that raises is followed by the
    report of the failure, [kill] and the exit of the scope. *)
Definition read_failure_caught (t : list Event) : Prop :=
  ∀ exc,
    EvReadFile "training_summary.json" (Raise exc) ∈ t →
    ∃ k y pre,
      t = pre ++ [ EvReadFile "training_summary.json" (Raise exc);
                   EvPrint (Py.nl +:+ "Failed to read training summary: " +:+ exc_str exc);
                   EvKill k;
                   EvExit (pending_of k) y ].

(** The exits of the scope, in order, each with the pending exception
    and what [__aexit__] gave. *)
Fixpoint exits_of (t : list Event) : list (option PyExc * Result bool) :=
  match t with
  | [] => []
  | EvExit pending r :: t' => (pending, r) :: exits_of t'
  | _ :: t' => exits_of t'
  end.

(** The outcome of a body with the pending exception [pending]. *)
Definition raised (pending : option PyExc) : Result unit :=
  match pending with
  | None => Ok ()
  | Some exc => Raise exc
  end.

(** The single quote, as a character and as a one-character string. *)
Definition quote_char : Ascii.ascii := Ascii.ascii_of_nat 39.
Definition quote : string := String quote_char EmptyString.

(** Collaborators and hosts that raise: the creation is refused when
    [create_fails], a command raises when [run_raises] says so (and
    returns without error otherwise), and the manifest is missing on
    the host. *)
Module Faulty.

Definition refused : PyExc :=
  {| is_Exception := true; exc_str := "sandbox creation refused" |}.

Definition timeout : PyExc :=
  {| is_Exception := true; exc_str := "request timed out" |}.

Definition missing : PyExc :=
  {| is_Exception := true; exc_str := "No such file or directory: requirements.txt" |}.

Definition sdk (create_fails : bool) (run_raises : string → bool) : Sdk Mock.files unit :=
  {| Sandbox_create := λ _ _ _ w, (if create_fails then Raise refused else Ok (), w);
     aenter := λ _ w, (Ok (), w);
     aexit := λ _ _ w, (Ok false, w);
     files_write_file := λ _ path content w, (Ok (), (path, content) :: w);
     files_read_file := λ _ _ w, (Ok "{}", w);
     commands_run := λ _ command w,
       (if run_raises command then Raise timeout else Ok (Mock.execution false), w);
     kill := λ _ w, (Ok (), w) |}.

Definition host : Host :=
  {| environ := ∅; requirements_txt := Raise missing |}.

End Faulty.

(** ** Equations of the monad and of the helpers *)

Section Equations.

Context {W H : Type} (sdk : Sdk W H).

Lemma bind_unfold {A B} (m : M W A) (k : A → M W B) (w : W) :
  (m ≫= k) w =
    match m w with
    | (Ok a, w1, t1) => let '(r, w2, t2) := k a w1 in (r, w2, t1 ++ t2)
    | (Raise exc, w1, t1) => (Raise exc, w1, t1)
    end.
Proof. reflexivity. Qed.

Lemma for_each_print {A} (f : A → string) (xs : list A) (w : W) :
  for_each xs (λ x, print (f x)) w = (Ok (), w, (λ x, EvPrint (f x)) <$> xs).
Proof.
  induction xs as [|x xs IH]; [reflexivity|].
  cbn. rewrite bind_unfold. cbn. rewrite IH. reflexivity.
Qed.

Lemma print_execution_logs_run (execution : Execution) (w : W) :
  _print_execution_logs execution w = (Ok (), w, log_events execution).
Proof.
  unfold _print_execution_logs, log_events.
  rewrite bind_unfold, for_each_print; cbn.
  rewrite bind_unfold, for_each_print; cbn.
  destruct (error execution); cbn; rewrite ?app_nil_r; reflexivity.
Qed.

Lemma runs_of_app (t1 t2 : list Event) :
  runs_of (t1 ++ t2) = runs_of t1 ++ runs_of t2.
Proof.
  induction t1 as [|ev t1 IH]; [reflexivity|].
  destruct ev; cbn; rewrite ?IH; reflexivity.
Qed.

Lemma log_events_prints (execution : Execution) (ev : Event) :
  ev ∈ log_events execution → ∃ line, ev = EvPrint line.
Proof.
  unfold log_events. rewrite !elem_of_app, !list_elem_of_fmap.
  intros [(msg & -> & _)|[(msg & -> & _)|Hev]]; eauto.
  destruct (error execution); [|by apply elem_of_nil in Hev].
  apply list_elem_of_singleton in Hev. eauto.
Qed.

Lemma runs_of_log_events (execution : Execution) :
  runs_of (log_events execution) = [].
Proof.
  unfold log_events. rewrite !runs_of_app.
  assert (Hmap : ∀ (f : OutputMessage → string) l,
             runs_of ((λ msg, EvPrint (f msg)) <$> l) = []).
  { intros f l. induction l; [reflexivity|]. cbn. assumption. }
  rewrite !Hmap. destruct (error execution); reflexivity.
Qed.

(** [_run_command] runs the command once, prints its logs, and answers
    by the error field alone. *)
Lemma run_command_run (sandbox : H) (command : string) (w : W) :
  _run_command sdk sandbox command w =
    match commands_run sdk sandbox command w with
    | (Ok execution, w1) =>
        (Ok (negb (_execution_failed execution)), w1,
         EvRun command (Ok execution) :: log_events execution)
    | (Raise exc, w1) => (Raise exc, w1, [EvRun command (Raise exc)])
    end.
Proof.
  unfold _run_command, call. rewrite bind_unfold.
  destruct (commands_run sdk sandbox command w) as [[execution|exc] w1]; [|reflexivity].
  rewrite bind_unfold, print_execution_logs_run. cbn.
  rewrite app_nil_r. reflexivity.
Qed.

(** One round of the fallback loop. *)
Lemma try_in_order_cons (sandbox : H) (command : string) (rest : list string) (w : W) :
  try_in_order sdk sandbox (command :: rest) w =
    match commands_run sdk sandbox command w with
    | (Ok execution, w1) =>
        if _execution_failed execution
        then let '(r, w2, t) := try_in_order sdk sandbox rest w1 in
             (r, w2, (EvRun command (Ok execution) :: log_events execution) ++ t)
        else (Ok true, w1, EvRun command (Ok execution) :: log_events execution)
    | (Raise exc, w1) => (Raise exc, w1, [EvRun command (Raise exc)])
    end.
Proof.
  cbn [try_in_order]. rewrite bind_unfold, run_command_run.
  destruct (commands_run sdk sandbox command w) as [[execution|exc] w1]; [|reflexivity].
  destruct (_execution_failed execution); cbn; [reflexivity|].
  rewrite app_nil_r. reflexivity.
Qed.

End Equations.

(** ** The fallback loop *)

Section Fallback.

Context {W H : Type} (sdk : Sdk W H).

Lemma execution_failed_iff (execution : Execution) :
  _execution_failed execution = true ↔ error execution ≠ None.
Proof.
  unfold _execution_failed. destruct (error execution); split; congruence.
Qed.

Lemma execution_failed_false (execution : Execution) :
  _execution_failed execution = false ↔ error execution = None.
Proof.
  unfold _execution_failed. destruct (error execution); split; congruence.
Qed.

(** The loop runs commands of its list only, and prints. *)
Lemma try_in_order_events (sandbox : H) (commands : list string) :
  ∀ w r w' t ev,
    try_in_order sdk sandbox commands w = (r, w', t) →
    ev ∈ t →
    (∃ command x, ev = EvRun command x ∧ command ∈ commands)
    ∨ (∃ line, ev = EvPrint line).
Proof.
  induction commands as [|command rest IH]; intros w r w' t ev Hrun Hev.
  - cbn in Hrun. injection Hrun as <- <- <-. by apply elem_of_nil in Hev.
  - rewrite try_in_order_cons in Hrun.
    destruct (commands_run sdk sandbox command w) as [[execution|exc] w1].
    + assert (Hhead : ev ∈ EvRun command (Ok execution) :: log_events execution →
                (∃ c x, ev = EvRun c x ∧ c ∈ command :: rest) ∨ (∃ line, ev = EvPrint line)).
      { intros [->|Hlog]%elem_of_cons.
        - left. eexists _, _. split; [reflexivity|]. apply elem_of_cons. by left.
        - right. by apply log_events_prints in Hlog. }
      destruct (_execution_failed execution).
      * destruct (try_in_order sdk sandbox rest w1) as [[r2 w2] t2] eqn:Hrest.
        injection Hrun as <- <- <-.
        change (ev ∈ (EvRun command (Ok execution) :: log_events execution) ++ t2) in Hev.
        apply elem_of_app in Hev as [Hev|Hev]; [by apply Hhead|].
        destruct (IH _ _ _ _ _ Hrest Hev) as [(c & x & -> & Hc)|Hp]; [|by right].
        left. eexists _, _. split; [reflexivity|]. apply elem_of_cons. by right.
      * injection Hrun as <- <- <-. by apply Hhead.
    + injection Hrun as <- <- <-.
      apply list_elem_of_singleton in Hev as ->.
      left. eexists _, _. split; [reflexivity|]. apply elem_of_cons. by left.
Qed.

(** When the loop answers [True], a command of its list ran without
    error. *)
Lemma try_in_order_true (sandbox : H) (commands : list string) :
  ∀ w w' t,
    try_in_order sdk sandbox commands w = (Ok true, w', t) →
    ∃ command execution,
      command ∈ commands ∧ EvRun command (Ok execution) ∈ t ∧ error execution = None.
Proof.
  induction commands as [|command rest IH]; intros w w' t Hrun.
  - cbn in Hrun. discriminate.
  - rewrite try_in_order_cons in Hrun.
    destruct (commands_run sdk sandbox command w) as [[execution|exc] w1]; [|discriminate].
    destruct (_execution_failed execution) eqn:Hfailed.
    + destruct (try_in_order sdk sandbox rest w1) as [[r2 w2] t2] eqn:Hrest.
      injection Hrun as -> <- <-.
      destruct (IH _ _ _ Hrest) as (c & e & Hc & He & Herr).
      exists c, e. split_and!; [apply elem_of_cons; by right| |done].
      apply elem_of_cons. right. apply elem_of_app. by right.
    + injection Hrun as <- <-.
      exists command, execution. split_and!.
      * apply elem_of_cons. by left.
      * apply elem_of_cons. by left.
      * by apply execution_failed_false.
Qed.

(** When every command fails the loop goes through the whole list. *)
Lemma try_in_order_all_fail (sandbox : H) (commands : list string) :
  ∀ w, every_run_fails sdk sandbox commands w →
       ∃ w' t, try_in_order sdk sandbox commands w = (Ok false, w', t)
               ∧ runs_of t = commands.
Proof.
  induction commands as [|command rest IH]; intros w Hfail.
  - exists w, []. split; reflexivity.
  - destruct Hfail as (execution & w1 & Hrun & Herr & Hrest).
    destruct (IH _ Hrest) as (w' & t & Hloop & Hruns).
    exists w', ((EvRun command (Ok execution) :: log_events execution) ++ t).
    rewrite try_in_order_cons, Hrun.
    apply execution_failed_iff in Herr as ->. rewrite Hloop.
    split; [reflexivity|].
    cbn. rewrite runs_of_app, runs_of_log_events, Hruns. reflexivity.
Qed.

End Fallback.

(** ** The fallback helpers: claims on the command lists *)

Section FallbackClaims.

Context {W H : Type} (sdk : Sdk W H).

(** C1.  For an ordered fallback list whose first command gives a result
    without error, the loop runs exactly that one command and answers
    [True]; so do [_ensure_pip] and [_install_requirements], whose lists
    are [bootstrap_commands] and [install_commands]. *)
Theorem first_success_runs_one_command
    (sandbox : H) (command : string) (rest : list string) (w w1 : W)
    (execution : Execution) :
  commands_run sdk sandbox command w = (Ok execution, w1) →
  error execution = None →
  ∃ t, try_in_order sdk sandbox (command :: rest) w = (Ok true, w1, t)
       ∧ runs_of t = [command]
       ∧ (command :: rest = bootstrap_commands →
          _ensure_pip sdk sandbox w = (Ok true, w1, t))
       ∧ (command :: rest = install_commands →
          _install_requirements sdk sandbox w = (Ok true, w1, t)).
Proof.
  intros Hrun Herr.
  assert (Hloop : try_in_order sdk sandbox (command :: rest) w
                  = (Ok true, w1, EvRun command (Ok execution) :: log_events execution)).
  { rewrite try_in_order_cons, Hrun.
    apply execution_failed_false in Herr as ->. reflexivity. }
  eexists. split_and!.
  - exact Hloop.
  - cbn. rewrite runs_of_log_events. reflexivity.
  - intros Hlist. unfold _ensure_pip. rewrite <- Hlist. exact Hloop.
  - intros Hlist. unfold _install_requirements. rewrite <- Hlist. exact Hloop.
Qed.

(** C2.  For an ordered fallback list all of whose commands give a
    result with an error, the loop runs every command once, in list
    order, and answers [False]; so do [_ensure_pip] and
    [_install_requirements]. *)
Theorem all_fail_runs_every_command
    (sandbox : H) (commands : list string) (w : W) :
  every_run_fails sdk sandbox commands w →
  ∃ w' t, try_in_order sdk sandbox commands w = (Ok false, w', t)
          ∧ runs_of t = commands
          ∧ (commands = bootstrap_commands →
             _ensure_pip sdk sandbox w = (Ok false, w', t))
          ∧ (commands = install_commands →
             _install_requirements sdk sandbox w = (Ok false, w', t)).
Proof.
  intros Hfail.
  destruct (try_in_order_all_fail sdk sandbox commands w Hfail) as (w' & t & Hloop & Hruns).
  exists w', t. split_and!; [done|done| |]; intros Hlist.
  - unfold _ensure_pip. rewrite <- Hlist. exact Hloop.
  - unfold _install_requirements. rewrite <- Hlist. exact Hloop.
Qed.

(** C6.  A command execution counts as failed exactly when the error
    field of its result is not [None]: two results with the same error
    field are judged alike whatever their logs, [_run_command] answers
    the negation, and the loop goes to the next candidate exactly in
    that case. *)
Theorem failure_is_the_error_field
    (sandbox : H) (command : string) (rest : list string) (w w1 : W)
    (execution : Execution) :
  commands_run sdk sandbox command w = (Ok execution, w1) →
  (_execution_failed execution = true ↔ error execution ≠ None)
  ∧ (∀ other, error other = error execution →
              _execution_failed other = _execution_failed execution)
  ∧ outcome_of (_run_command sdk sandbox command w)
    = Ok (negb (_execution_failed execution))
  ∧ (error execution ≠ None →
     try_in_order sdk sandbox (command :: rest) w
     = let '(r, w2, t) := try_in_order sdk sandbox rest w1 in
       (r, w2, (EvRun command (Ok execution) :: log_events execution) ++ t))
  ∧ (error execution = None →
     try_in_order sdk sandbox (command :: rest) w
     = (Ok true, w1, EvRun command (Ok execution) :: log_events execution)).
Proof.
  intros Hrun. split_and!.
  - apply execution_failed_iff.
  - intros other Hsame. unfold _execution_failed. rewrite Hsame. reflexivity.
  - rewrite run_command_run, Hrun. reflexivity.
  - intros Herr. rewrite try_in_order_cons, Hrun.
    apply execution_failed_iff in Herr as ->. reflexivity.
  - intros Herr. rewrite try_in_order_cons, Hrun.
    apply execution_failed_false in Herr as ->. reflexivity.
Qed.

End FallbackClaims.

Lemma first_success_runs_one_command_witness :
  ∃ t, try_in_order (Mock.sdk (λ _, false) (Ok "{}")) ()
         (_with_python_env "python3 -m pip --version" :: tail bootstrap_commands) []
       = (Ok true, [], t)
       ∧ runs_of t = [_with_python_env "python3 -m pip --version"]
       ∧ (_with_python_env "python3 -m pip --version" :: tail bootstrap_commands
          = bootstrap_commands →
          _ensure_pip (Mock.sdk (λ _, false) (Ok "{}")) () [] = (Ok true, [], t))
       ∧ (_with_python_env "python3 -m pip --version" :: tail bootstrap_commands
          = install_commands →
          _install_requirements (Mock.sdk (λ _, false) (Ok "{}")) () [] = (Ok true, [], t)).
Proof.
  apply (first_success_runs_one_command (Mock.sdk (λ _, false) (Ok "{}")) ()
           (_with_python_env "python3 -m pip --version") (tail bootstrap_commands)
           [] [] (Mock.execution false)).
  - reflexivity.
  - reflexivity.
Defined.

Lemma all_fail_runs_every_command_witness :
  ∃ w' t, try_in_order (Mock.sdk (λ _, true) (Ok "{}")) () install_commands [] = (Ok false, w', t)
          ∧ runs_of t = install_commands
          ∧ (install_commands = bootstrap_commands →
             _ensure_pip (Mock.sdk (λ _, true) (Ok "{}")) () [] = (Ok false, w', t))
          ∧ (install_commands = install_commands →
             _install_requirements (Mock.sdk (λ _, true) (Ok "{}")) () [] = (Ok false, w', t)).
Proof.
  apply (all_fail_runs_every_command (Mock.sdk (λ _, true) (Ok "{}")) () install_commands []).
  simpl. repeat (eexists _, _; split_and!; [reflexivity|discriminate|]). exact I.
Defined.

Lemma failure_is_the_error_field_witness :
  let sdk := Mock.sdk (λ _, true) (Ok "{}") in
  let execution := Mock.execution true in
  (_execution_failed execution = true ↔ error execution ≠ None)
  ∧ (∀ other, error other = error execution →
              _execution_failed other = _execution_failed execution)
  ∧ outcome_of (_run_command sdk () "pip3 --version" [])
    = Ok (negb (_execution_failed execution))
  ∧ (error execution ≠ None →
     try_in_order sdk () ["pip3 --version"; "pip --version"] []
     = let '(r, w2, t) := try_in_order sdk () ["pip --version"] [] in
       (r, w2, (EvRun "pip3 --version" (Ok execution) :: log_events execution) ++ t))
  ∧ (error execution = None →
     try_in_order sdk () ["pip3 --version"; "pip --version"] []
     = (Ok true, [], EvRun "pip3 --version" (Ok execution) :: log_events execution)).
Proof.
  apply (failure_is_the_error_field (Mock.sdk (λ _, true) (Ok "{}")) ()
           "pip3 --version" ["pip --version"] [] [] (Mock.execution true)).
  reflexivity.
Defined.

(** ** The generated script *)


(** ** Case analysis of a run of [main] *)

Lemma train_not_bootstrap : train_command ∉ bootstrap_commands.
Proof. apply (bool_decide_eq_false_1 (_ ∈ _)). vm_compute. reflexivity. Qed.

Lemma train_not_install : train_command ∉ install_commands.
Proof. apply (bool_decide_eq_false_1 (_ ∈ _)). vm_compute. reflexivity. Qed.

Lemma install_not_bootstrap (command : string) :
  command ∈ install_commands → command ∉ bootstrap_commands.
Proof.
  intros Hc.
  repeat (apply elem_of_cons in Hc as [->|Hc];
          [apply (bool_decide_eq_false_1 (_ ∈ _)); vm_compute; reflexivity|]).
  by apply elem_of_nil in Hc.
Qed.

(** Unfolds [main] in [Hm : main sdk host w = _] down to the calls. *)
Ltac expose_main Hm :=
  cbv [main mbind M_bind bind call async_with try_except _load_requirements of_result
       print ret mret M_ret] in Hm.

Ltac tidy Hm := cbn [app void pending_of negb] in Hm.

(** Splits on the outcome of the next call of the run. *)
Ltac case_step Hm :=
  match type of Hm with
  | context [Sandbox_create ?s ?a ?b ?c ?w] =>
      destruct (Sandbox_create s a b c w) as [[?sandbox|?exc] ?w] eqn:?Hcreate
  | context [aenter ?s ?h ?w] =>
      destruct (aenter s h w) as [[[]|?exc] ?w] eqn:?Henter
  | context [requirements_txt ?h] =>
      destruct (requirements_txt h) as [?req|?exc] eqn:?Hreq
  | context [files_write_file ?s ?h ?p ?c ?w] =>
      destruct (files_write_file s h p c w) as [[[]|?exc] ?w] eqn:?Hwrite
  | context [_ensure_pip ?s ?h ?w] =>
      destruct (_ensure_pip s h w) as [[[[]|?exc] ?w] ?tb] eqn:?Hpip
  | context [_install_requirements ?s ?h ?w] =>
      destruct (_install_requirements s h w) as [[[[]|?exc] ?w] ?ti] eqn:?Hinstall
  | context [commands_run ?s ?h ?c ?w] =>
      destruct (commands_run s h c w) as [[?train_exec|?exc] ?w] eqn:?Htrain
  | context [_print_execution_logs ?e ?w] =>
      rewrite (print_execution_logs_run e w) in Hm
  | context [_execution_failed ?e] =>
      destruct (_execution_failed e) eqn:?Hfailed
  | context [files_read_file ?s ?h ?p ?w] =>
      destruct (files_read_file s h p w) as [[?summary|?exc] ?w] eqn:?Hread
  | context [if is_Exception ?e then _ else _] =>
      destruct (is_Exception e) eqn:?Hclass
  | context [kill ?s ?h ?w] =>
      destruct (kill s h w) as [?k ?w] eqn:?Hkill
  | context [aexit ?s ?h ?p ?w] =>
      destruct (aexit s h p w) as [?x ?w] eqn:?Hexit
  end; tidy Hm.

(** All the ways a run of [main] can go, each with its explicit trace. *)
Ltac main_cases Hm :=
  expose_main Hm;
  let script := fresh "script" in
  set (script := _training_script ()) in *; clearbody script;
  repeat case_step Hm; injection Hm as <- <- <-.

(** Splits a membership in an explicit trace into its cases. *)
Ltac in_trace Hev :=
  repeat first
    [ apply elem_of_nil in Hev; destruct Hev
    | apply log_events_prints in Hev as [? Hev]
    | match goal with
      | Hrun : _ensure_pip _ _ _ = (_, _, ?t) |- _ =>
          match type of Hev with
          | _ ∈ t => apply (try_in_order_events _ _ _ _ _ _ _ _ Hrun) in Hev
                       as [(? & ? & Hev & ?)|(? & Hev)]
          end
      | Hrun : _install_requirements _ _ _ = (_, _, ?t) |- _ =>
          match type of Hev with
          | _ ∈ t => apply (try_in_order_events _ _ _ _ _ _ _ _ Hrun) in Hev
                       as [(? & ? & Hev & ?)|(? & Hev)]
          end
      end
    | apply elem_of_cons in Hev as [Hev|Hev]
    | apply elem_of_app in Hev as [Hev|Hev] ].

(** Closes a case by a command found in a list it is not in. *)
Ltac wrong_list :=
  exfalso;
  first [ by eapply train_not_bootstrap
        | by eapply train_not_install
        | by eapply install_not_bootstrap ].

(** Proves that an explicit trace ends with the given events, the last
    of which is the event of leaving the scope. *)
Ltac ends_with_exit :=
  lazymatch goal with
  | |- ∃ pre, _ = pre ++ _ =>
      change (∃ pre, ?t = pre ++ ?u) with (u `suffix_of` t)
  end;
  repeat apply suffix_cons_r;
  first [ apply (suffix_app [_] _ [_])
        | apply (suffix_app [_; _] _ [_])
        | apply (suffix_app [_; _; _] _ [_])
        | apply (suffix_app [_; _; _; _] _ [_]) ];
  repeat first [ reflexivity | apply suffix_cons_r | apply suffix_app_r ].

Section MainClaims.

Context {W H : Type} (sdk : Sdk W H).

(** Whatever is written to [train.py] is the text of
    [_training_script]. *)
Lemma train_py_content (host : Host) (w0 : W) (content : string) (r : Result unit) :
  EvWriteFile "train.py" content r ∈ trace_of (main sdk host w0) →
  content = _training_script ().
Proof.
  destruct (main sdk host w0) as [[r0 wf] t] eqn:Hmain.
  unfold trace_of; cbn [snd]. intros Hev.
  main_cases Hmain; in_trace Hev; by simplify_eq.
Qed.

(** Every run starts by the creation of the sandbox, with the mapping
    of [RL_TIMESTEPS]. *)
Lemma main_starts_with_create (host : Host) (w0 : W) :
  ∃ c rest,
    trace_of (main sdk host w0)
    = EvCreate (sandbox_image host) (connection_config host) (sandbox_env host) c :: rest.
Proof.
  destruct (main sdk host w0) as [[r0 wf] t] eqn:Hmain.
  unfold trace_of; cbn [snd].
  main_cases Hmain; eexists _, _; reflexivity.
Qed.

(** C5.  In every run of [main], when the training command gave a result
    with an error, no file is read back (so not
    [training_summary.json]): the run ends by printing the failure and
    leaving the scope, with no exception pending. *)
Theorem training_error_skips_summary (host : Host) (w0 : W) (execution : Execution) :
  EvRun train_command (Ok execution) ∈ trace_of (main sdk host w0) →
  error execution ≠ None →
  (∀ path x, EvReadFile path x ∉ trace_of (main sdk host w0))
  ∧ ∃ x,
      outcome_of (main sdk host w0) = scope_result x (Ok ())
      ∧ ∃ pre, trace_of (main sdk host w0)
               = pre ++ [EvPrint "Training failed inside the sandbox."; EvExit None x].
Proof.
  destruct (main sdk host w0) as [[r0 wf] t] eqn:Hmain.
  unfold trace_of, outcome_of; cbn [fst snd]. intros Hev Herr.
  main_cases Hmain; in_trace Hev; simplify_eq; try wrong_list.
  all: try (apply execution_failed_false in Hfailed; congruence).
  split.
  - intros path y Hread. in_trace Hread; simplify_eq.
  - exists x. split; [reflexivity|].
    ends_with_exit.
Qed.

End MainClaims.

(** ** Failures that end a run of [main] *)

Section Failures.

Context {W H : Type} (sdk : Sdk W H).

(** C4.  In a run of [main] that reaches the bootstrap step (the
    sandbox was created, the scope entered and [requirements.txt]
    written), when [_ensure_pip] answers [False] the run prints the
    bootstrap failure and leaves the scope with no exception pending:
    every command run is a bootstrap command, none an install command
    or the training command. *)
Theorem bootstrap_failure_aborts
    (host : Host) (w0 w1 w2 w3 w4 : W) (sandbox : H) (req : string) (tb : list Event) :
  Sandbox_create sdk (sandbox_image host) (connection_config host) (sandbox_env host) w0
  = (Ok sandbox, w1) →
  aenter sdk sandbox w1 = (Ok (), w2) →
  requirements_txt host = Ok req →
  files_write_file sdk sandbox "requirements.txt" req w2 = (Ok (), w3) →
  _ensure_pip sdk sandbox w3 = (Ok false, w4, tb) →
  ∃ x,
    outcome_of (main sdk host w0) = scope_result x (Ok ())
    ∧ trace_of (main sdk host w0)
      = ([ EvCreate (sandbox_image host) (connection_config host) (sandbox_env host) (Ok ());
           EvEnter (Ok ());
           EvWriteFile "requirements.txt" req (Ok ()) ]
         ++ tb
         ++ [ EvPrint "Failed to bootstrap pip inside the sandbox."; EvExit None x ])
    ∧ ∀ command r,
        EvRun command r ∈ trace_of (main sdk host w0) →
        command ∈ bootstrap_commands
        ∧ (command ∉ install_commands)
        ∧ command ≠ train_command.
Proof.
  intros Hcreate Henter Hreq Hwrite Hpip.
  destruct (main sdk host w0) as [[r0 wf] t] eqn:Hmain.
  unfold trace_of, outcome_of; cbn [fst snd].
  expose_main Hmain.
  rewrite Hcreate in Hmain; tidy Hmain.
  rewrite Henter, Hreq in Hmain; tidy Hmain.
  rewrite Hwrite in Hmain; tidy Hmain.
  rewrite Hpip in Hmain; tidy Hmain.
  destruct (aexit sdk sandbox None w4) as [x w5] eqn:Hexit.
  injection Hmain as <- <- <-.
  exists x. split_and!.
  - reflexivity.
  - cbn [app]. rewrite <- app_assoc. reflexivity.
  - intros command r Hev.
    assert (Hc : command ∈ bootstrap_commands) by (in_trace Hev; by simplify_eq).
    split_and!; [done| |].
    + intros Hin. by eapply install_not_bootstrap.
    + intros ->. by eapply train_not_bootstrap.
Qed.

(** C7, as the code has it.  In every run of [main] that reads
    [training_summary.json]: when the read raises an instance of
    [Exception], the run goes on by printing the failure with the text of
    the exception, calls [kill] and leaves the scope; when the read
    returns, the summary is printed under its heading instead, and the
    teardown is the same. *)
Theorem summary_read_is_reported (host : Host) (w0 : W) (x : Result string) :
  EvReadFile "training_summary.json" x ∈ trace_of (main sdk host w0) →
  (∀ exc, x = Raise exc → is_Exception exc = true →
     ∃ k y,
       outcome_of (main sdk host w0) = scope_result y k
       ∧ ∃ pre, trace_of (main sdk host w0)
                = pre ++ [ EvReadFile "training_summary.json" (Raise exc);
                           EvPrint (Py.nl +:+ "Failed to read training summary: "
                                    +:+ exc_str exc);
                           EvKill k;
                           EvExit (pending_of k) y ])
  ∧ (∀ summary, x = Ok summary →
     ∃ k y,
       outcome_of (main sdk host w0) = scope_result y k
       ∧ ∃ pre, trace_of (main sdk host w0)
                = pre ++ [ EvReadFile "training_summary.json" (Ok summary);
                           EvPrint (Py.nl +:+ "=== Training summary ===");
                           EvPrint summary;
                           EvKill k;
                           EvExit (pending_of k) y ]).
Proof.
  destruct (main sdk host w0) as [[r0 wf] t] eqn:Hmain.
  unfold trace_of, outcome_of; cbn [fst snd]. intros Hev.
  main_cases Hmain; in_trace Hev; simplify_eq.
  all: split; [intros exc0 Hx Hcaught|intros summary0 Hx]; simplify_eq.
  all: try congruence.
  all: eexists _, _; (split; [reflexivity|]); ends_with_exit.
Qed.

(** An exception that is not an instance of [Exception] is not caught
    by the handler of the read: [kill] is not called, and the scope is
    left with the exception pending. *)
Lemma summary_read_not_caught (host : Host) (w0 : W) (exc : PyExc) :
  EvReadFile "training_summary.json" (Raise exc) ∈ trace_of (main sdk host w0) →
  is_Exception exc = false →
  (∀ k, EvKill k ∉ trace_of (main sdk host w0))
  ∧ ∃ y pre, trace_of (main sdk host w0)
             = pre ++ [ EvReadFile "training_summary.json" (Raise exc);
                        EvExit (Some exc) y ].
Proof.
  destruct (main sdk host w0) as [[r0 wf] t] eqn:Hmain.
  unfold trace_of, outcome_of; cbn [fst snd]. intros Hev Hclass.
  main_cases Hmain; in_trace Hev; simplify_eq; try congruence.
  split.
  - intros k0 Hk. in_trace Hk; simplify_eq.
  - eexists _. ends_with_exit.
Qed.

End Failures.

(** C7, as stated, fails for an exception that [except Exception] does
    not catch, such as the cancellation of the awaited read: nothing is
    printed and [kill] is not called. *)
Lemma cancelled_read_is_not_caught :
  ¬ read_failure_caught
      (trace_of (main (Mock.sdk (λ _, false) (Raise Mock.cancelled)) (Mock.host None) [])).
Proof.
  intros Hcaught.
  assert (Hread : EvReadFile "training_summary.json" (Raise Mock.cancelled)
                  ∈ trace_of (main (Mock.sdk (λ _, false) (Raise Mock.cancelled))
                                (Mock.host None) [])).
  { apply (bool_decide_eq_true_1 (_ ∈ _)). vm_compute. reflexivity. }
  destruct (Hcaught _ Hread) as (k & y & pre & Htrace).
  destruct (summary_read_not_caught _ _ _ _ Hread eq_refl) as [Hkill _].
  apply (Hkill k). rewrite Htrace.
  apply elem_of_app. right. do 2 apply list_elem_of_further. apply list_elem_of_here.
Qed.

Lemma bootstrap_failure_aborts_witness :
  ∃ x,
    outcome_of (main (Mock.sdk (λ _, true) (Ok "{}")) (Mock.host None) [])
    = scope_result x (Ok ())
    ∧ trace_of (main (Mock.sdk (λ _, true) (Ok "{}")) (Mock.host None) [])
      = ([ EvCreate (sandbox_image (Mock.host None)) (connection_config (Mock.host None))
             (sandbox_env (Mock.host None)) (Ok ());
           EvEnter (Ok ());
           EvWriteFile "requirements.txt" "stable-baselines3" (Ok ()) ]
         ++ trace_of (_ensure_pip (Mock.sdk (λ _, true) (Ok "{}")) ()
                        [("requirements.txt", "stable-baselines3")])
         ++ [ EvPrint "Failed to bootstrap pip inside the sandbox."; EvExit None x ])
    ∧ ∀ command r,
        EvRun command r ∈ trace_of (main (Mock.sdk (λ _, true) (Ok "{}")) (Mock.host None) []) →
        command ∈ bootstrap_commands
        ∧ (command ∉ install_commands)
        ∧ command ≠ train_command.
Proof.
  apply (bootstrap_failure_aborts (Mock.sdk (λ _, true) (Ok "{}")) (Mock.host None)
           [] [] [] [("requirements.txt", "stable-baselines3")]
           [("requirements.txt", "stable-baselines3")] () "stable-baselines3").
  - reflexivity.
  - reflexivity.
  - reflexivity.
  - reflexivity.
  - vm_compute. reflexivity.
Defined.

Lemma training_error_skips_summary_witness :
  let sdk := Mock.sdk (λ command, bool_decide (command = train_command)) (Ok "{}") in
  (∀ path x, EvReadFile path x ∉ trace_of (main sdk (Mock.host None) []))
  ∧ ∃ x,
      outcome_of (main sdk (Mock.host None) []) = scope_result x (Ok ())
      ∧ ∃ pre, trace_of (main sdk (Mock.host None) [])
               = pre ++ [EvPrint "Training failed inside the sandbox."; EvExit None x].
Proof.
  apply (training_error_skips_summary
           (Mock.sdk (λ command, bool_decide (command = train_command)) (Ok "{}"))
           (Mock.host None) [] (Mock.execution true)).
  - apply (bool_decide_eq_true_1 (_ ∈ _)). vm_compute. reflexivity.
  - discriminate.
Defined.

Lemma summary_read_is_reported_witness :
  let sdk := Mock.sdk (λ _, false) (Raise Mock.read_error) in
  (∀ exc, @Raise string Mock.read_error = Raise exc → is_Exception exc = true →
     ∃ k y,
       outcome_of (main sdk (Mock.host None) []) = scope_result y k
       ∧ ∃ pre, trace_of (main sdk (Mock.host None) [])
                = pre ++ [ EvReadFile "training_summary.json" (Raise exc);
                           EvPrint (Py.nl +:+ "Failed to read training summary: "
                                    +:+ exc_str exc);
                           EvKill k;
                           EvExit (pending_of k) y ])
  ∧ (∀ summary, @Raise string Mock.read_error = Ok summary →
     ∃ k y,
       outcome_of (main sdk (Mock.host None) []) = scope_result y k
       ∧ ∃ pre, trace_of (main sdk (Mock.host None) [])
                = pre ++ [ EvReadFile "training_summary.json" (Ok summary);
                           EvPrint (Py.nl +:+ "=== Training summary ===");
                           EvPrint summary;
                           EvKill k;
                           EvExit (pending_of k) y ]).
Proof.
  apply (summary_read_is_reported (Mock.sdk (λ _, false) (Raise Mock.read_error))
           (Mock.host None) [] (Raise Mock.read_error)).
  apply (bool_decide_eq_true_1 (_ ∈ _)). vm_compute. reflexivity.
Defined.

(** ** The order of writes and commands *)

Lemma split_nil {A} (ev : A) (pre post : list A) : [] = pre ++ ev :: post → False.
Proof. by destruct pre. Qed.

Lemma split_cons {A} (x ev : A) (l pre post : list A) :
  x :: l = pre ++ ev :: post →
  (pre = [] ∧ x = ev ∧ l = post) ∨ (∃ pre', pre = x :: pre' ∧ l = pre' ++ ev :: post).
Proof.
  destruct pre as [|y pre]; cbn; intros Heq; injection Heq as -> ->.
  - by left.
  - right. by exists pre.
Qed.

Lemma split_app {A} (ev : A) (l1 l2 pre post : list A) :
  l1 ++ l2 = pre ++ ev :: post →
  (∃ mid, l1 = pre ++ ev :: mid ∧ post = mid ++ l2)
  ∨ (∃ pre', pre = l1 ++ pre' ∧ l2 = pre' ++ ev :: post).
Proof.
  revert pre. induction l1 as [|x l1 IH]; intros pre Heq.
  - right. by exists pre.
  - destruct pre as [|y pre]; cbn in Heq; injection Heq as -> Heq.
    + left. exists l1. by subst.
    + destruct (IH _ Heq) as [(mid & -> & ->)|(pre' & -> & ->)].
      * left. by exists mid.
      * right. by exists pre'.
Qed.

Lemma split_elem {A} (ev : A) (l pre post : list A) : l = pre ++ ev :: post → ev ∈ l.
Proof. intros ->. apply elem_of_app. right. apply list_elem_of_here. Qed.

(** Splits an explicit trace at an event: either the event is one of the
    explicit ones, or it is a member of one of the sub-traces. *)
Ltac split_trace Hsp :=
  repeat lazymatch type of Hsp with
    | [] = _ ++ _ :: _ => apply split_nil in Hsp; destruct Hsp
    | _ :: _ = _ ++ _ :: _ =>
        let pre' := fresh "pre" in
        apply split_cons in Hsp as [(-> & Hsp & <-)|(pre' & -> & Hsp)]
    | _ ++ _ = _ ++ _ :: _ =>
        let pre' := fresh "pre" in
        let mid := fresh "mid" in
        apply split_app in Hsp as [(mid & Hsp & ->)|(pre' & -> & Hsp)]
    end;
  try apply split_elem in Hsp.

(** Finds an event in an explicit list. *)
Ltac find_event :=
  solve [ repeat first
            [ eassumption
            | apply list_elem_of_here
            | apply list_elem_of_further
            | apply elem_of_app; left; eassumption
            | apply elem_of_app; right ] ].

Section Order.

Context {W H : Type} (sdk : Sdk W H).

(** C8, as the code has it.  In every run of [main], [requirements.txt]
    is written before any bootstrap command is attempted.  [train.py] is
    written later: whenever it is written, a bootstrap command and an
    install command have run without error before, and no bootstrap
    command is attempted afterwards. *)
Theorem files_written_around_bootstrap (host : Host) (w0 : W) :
  written_before_bootstrap "requirements.txt" (trace_of (main sdk host w0))
  ∧ ∀ pre content r post,
      trace_of (main sdk host w0) = pre ++ EvWriteFile "train.py" content r :: post →
      (∃ command execution,
         command ∈ bootstrap_commands
         ∧ EvRun command (Ok execution) ∈ pre
         ∧ error execution = None)
      ∧ (∃ command execution,
           command ∈ install_commands
           ∧ EvRun command (Ok execution) ∈ pre
           ∧ error execution = None)
      ∧ ∀ command x, EvRun command x ∈ post → command ∉ bootstrap_commands.
Proof.
  destruct (main sdk host w0) as [[r0 wf] t] eqn:Hmain.
  unfold trace_of; cbn [snd]. split.
  - intros pre command r post Hsp Hc.
    main_cases Hmain; split_trace Hsp; in_trace Hsp; simplify_eq.
    all: try (exists req; find_event).
    all: wrong_list.
  - intros pre content r post Hsp.
    main_cases Hmain; split_trace Hsp; in_trace Hsp; simplify_eq.
    all: destruct (try_in_order_true _ _ _ _ _ _ Hpip) as (cb & eb & Hcb & Heb & Herrb).
    all: destruct (try_in_order_true _ _ _ _ _ _ Hinstall) as (ci & ei & Hci & Hei & Herri).
    all: split_and!;
      [ exists cb, eb; split_and!; [done|find_event|done]
      | exists ci, ei; split_and!; [done|find_event|done]
      | intros command y Hpost Hc; in_trace Hpost; simplify_eq; wrong_list ].
Qed.

End Order.

(** C8, as stated, fails: on a sandbox where every command succeeds the
    first bootstrap command runs when [train.py] has not been written
    yet. *)
Lemma train_py_not_written_before_bootstrap :
  ¬ (written_before_bootstrap "requirements.txt"
       (trace_of (main (Mock.sdk (λ _, false) (Ok "{}")) (Mock.host None) []))
     ∧ written_before_bootstrap "train.py"
         (trace_of (main (Mock.sdk (λ _, false) (Ok "{}")) (Mock.host None) []))).
Proof.
  intros [_ Hbefore].
  destruct (Hbefore
              (take 3 (trace_of (main (Mock.sdk (λ _, false) (Ok "{}")) (Mock.host None) [])))
              (_with_python_env "python3 -m pip --version")
              (Ok (Mock.execution false))
              (drop 4 (trace_of (main (Mock.sdk (λ _, false) (Ok "{}")) (Mock.host None) []))))
    as [content Hin].
  - vm_compute. reflexivity.
  - apply list_elem_of_here.
  - vm_compute in Hin. in_trace Hin; discriminate.
Qed.

(** ** How [RL_TIMESTEPS] reaches the sandbox *)

Lemma script_embeds_5000 : embeds_default "5000" (_training_script ()) = true.
Proof. vm_compute. reflexivity. Qed.

Lemma script_sets_timesteps :
  Py.contains ("timesteps = int(" +:+ getenv_timesteps "5000" +:+ ")") (_training_script ())
  = true.
Proof. vm_compute. reflexivity. Qed.

Lemma script_reads_timesteps_once :
  Py.occurrences ("os.getenv(" +:+ Py.q "RL_TIMESTEPS") (_training_script ()) = 1.
Proof. vm_compute. reflexivity. Qed.

Lemma script_lacks_1000 :
  embeds_default "1000" (_training_script ()) = false
  ∧ Py.contains (Py.q "1000") (_training_script ()) = false.
Proof. vm_compute. split; reflexivity. Qed.

Section Timesteps.

Context {W H : Type} (sdk : Sdk W H).

(** C3, as the code has it.  Whatever [RL_TIMESTEPS] is on the host
    (unset, 1000 or anything else), the script written to [train.py] is
    the text of [_training_script]: it reads the variable once and
    defaults internally to 5000 timesteps, and it has no default
    ["1000"].  The host's value (["5000"] when unset) is in the mapping
    given to [Sandbox.create]: with [RL_TIMESTEPS=1000] that mapping is
    [{"RL_TIMESTEPS": "1000"}]. *)
Theorem script_default_is_5000 (host : Host) (w0 : W) (content : string) (r : Result unit) :
  EvWriteFile "train.py" content r ∈ trace_of (main sdk host w0) →
  content = _training_script ()
  ∧ embeds_default "5000" content = true
  ∧ Py.contains ("timesteps = int(" +:+ getenv_timesteps "5000" +:+ ")") content = true
  ∧ Py.occurrences ("os.getenv(" +:+ Py.q "RL_TIMESTEPS") content = 1
  ∧ embeds_default "1000" content = false
  ∧ Py.contains (Py.q "1000") content = false
  ∧ (∃ c rest,
       trace_of (main sdk host w0)
       = EvCreate (sandbox_image host) (connection_config host)
           {[ "RL_TIMESTEPS" := default "5000" (environ host !! "RL_TIMESTEPS") ]} c :: rest)
  ∧ (environ host !! "RL_TIMESTEPS" = Some "1000" →
     ∃ c rest,
       trace_of (main sdk host w0)
       = EvCreate (sandbox_image host) (connection_config host)
           {[ "RL_TIMESTEPS" := "1000" ]} c :: rest).
Proof.
  intros Hev. apply train_py_content in Hev as ->.
  destruct (main_starts_with_create sdk host w0) as (c & rest & Htrace).
  split_and!.
  - reflexivity.
  - exact script_embeds_5000.
  - exact script_sets_timesteps.
  - exact script_reads_timesteps_once.
  - apply script_lacks_1000.
  - apply script_lacks_1000.
  - exists c, rest. exact Htrace.
  - intros Hset. exists c, rest. rewrite Htrace.
    unfold sandbox_env, getenv_default. rewrite Hset. reflexivity.
Qed.


End Timesteps.

(** C3, as stated, fails: with [RL_TIMESTEPS=1000] on the host the text
    written to [train.py] has no default ["1000"]. *)
Lemma script_does_not_follow_host :
  ¬ script_follows_host (Mock.host (Some "1000"))
      (trace_of (main (Mock.sdk (λ _, false) (Ok "{}")) (Mock.host (Some "1000")) [])).
Proof.
  intros Hfollows.
  destruct (Hfollows (_training_script ()) (Ok ())) as [_ H1000].
  - apply (bool_decide_eq_true_1 (_ ∈ _)). vm_compute. reflexivity.
  - assert (Hset : environ (Mock.host (Some "1000")) !! "RL_TIMESTEPS" = Some "1000")
      by (vm_compute; reflexivity).
    specialize (H1000 Hset). vm_compute in H1000. discriminate.
Qed.

Lemma script_default_is_5000_witness :
  let sdk := Mock.sdk (λ _, false) (Ok "{}") in
  let host := Mock.host (Some "1000") in
  _training_script () = _training_script ()
  ∧ embeds_default "5000" (_training_script ()) = true
  ∧ Py.contains ("timesteps = int(" +:+ getenv_timesteps "5000" +:+ ")") (_training_script ())
    = true
  ∧ Py.occurrences ("os.getenv(" +:+ Py.q "RL_TIMESTEPS") (_training_script ()) = 1
  ∧ embeds_default "1000" (_training_script ()) = false
  ∧ Py.contains (Py.q "1000") (_training_script ()) = false
  ∧ (∃ c rest,
       trace_of (main sdk host [])
       = EvCreate (sandbox_image host) (connection_config host)
           {[ "RL_TIMESTEPS" := default "5000" (environ host !! "RL_TIMESTEPS") ]} c :: rest)
  ∧ (environ host !! "RL_TIMESTEPS" = Some "1000" →
     ∃ c rest,
       trace_of (main sdk host [])
       = EvCreate (sandbox_image host) (connection_config host)
           {[ "RL_TIMESTEPS" := "1000" ]} c :: rest).
Proof.
  apply (script_default_is_5000 (Mock.sdk (λ _, false) (Ok "{}")) (Mock.host (Some "1000"))
           [] (_training_script ()) (Ok ())).
  apply (bool_decide_eq_true_1 (_ ∈ _)). vm_compute. reflexivity.
Defined.


(** ** More on the fallback loop *)

Section FallbackMore.

Context {W H : Type} (sdk : Sdk W H).

Lemma runs_of_attempt (command : string) (execution : Execution) (t : list Event) :
  runs_of (EvRun command (Ok execution) :: log_events execution ++ t)
  = command :: runs_of t.
Proof. cbn. rewrite runs_of_app, runs_of_log_events. reflexivity. Qed.

(** The commands the loop ran are an initial segment of its list. *)
Lemma runs_prefix (sandbox : H) (commands : list string) :
  ∀ w r w' t,
    try_in_order sdk sandbox commands w = (r, w', t) → runs_of t `prefix_of` commands.
Proof.
  induction commands as [|command rest IH]; intros w r w' t Hloop.
  - cbn in Hloop. injection Hloop as <- <- <-. apply prefix_nil.
  - rewrite try_in_order_cons in Hloop.
    destruct (commands_run sdk sandbox command w) as [[execution|exc] w1].
    + destruct (_execution_failed execution).
      * destruct (try_in_order sdk sandbox rest w1) as [[r2 w2] t2] eqn:Hrest.
        injection Hloop as <- <- <-. rewrite runs_of_attempt.
        apply prefix_cons. by eapply IH.
      * injection Hloop as <- <- <-. cbn [runs_of]. rewrite runs_of_log_events.
        apply prefix_cons, prefix_nil.
    + injection Hloop as <- <- <-. apply prefix_cons, prefix_nil.
Qed.

(** X1.  Whatever the outcome of the loop (an answer or an exception),
    the commands it ran are an initial segment of its list: candidates
    are attempted in list order, none skipped, none twice, and never
    more than the list holds. *)
Theorem try_in_order_runs_prefix (sandbox : H) (commands : list string) (w : W) :
  runs_of (trace_of (try_in_order sdk sandbox commands w)) `prefix_of` commands
  ∧ length (runs_of (trace_of (try_in_order sdk sandbox commands w))) ≤ length commands.
Proof.
  destruct (try_in_order sdk sandbox commands w) as [[r w'] t] eqn:Hloop.
  unfold trace_of; cbn [snd].
  pose proof (runs_prefix _ _ _ _ _ _ Hloop) as Hprefix.
  split; [exact Hprefix|]. by apply prefix_length.
Qed.

(** X2.  The loop over a list in two parts is the loop over the first
    part and, when that answers [False], the loop over the second part
    from the state the first one left; a success or an exception in the
    first part ends the whole loop. *)
Theorem try_in_order_app (sandbox : H) (first second : list string) (w : W) :
  try_in_order sdk sandbox (first ++ second) w
  = match try_in_order sdk sandbox first w with
    | (Ok false, w1, t1) =>
        let '(r, w2, t2) := try_in_order sdk sandbox second w1 in (r, w2, t1 ++ t2)
    | other => other
    end.
Proof.
  revert w. induction first as [|command rest IH]; intros w.
  - change (try_in_order sdk sandbox [] w) with (@Ok bool false, w, @nil Event).
    cbn [app]. destruct (try_in_order sdk sandbox second w) as [[r w2] t2]. reflexivity.
  - rewrite <- app_comm_cons, !try_in_order_cons.
    destruct (commands_run sdk sandbox command w) as [[execution|exc] w1]; [|reflexivity].
    destruct (_execution_failed execution); [|reflexivity].
    rewrite IH.
    destruct (try_in_order sdk sandbox rest w1) as [[[[]|exc] w2] t]; try reflexivity.
    destruct (try_in_order sdk sandbox second w2) as [[r w3] t2].
    rewrite app_assoc. reflexivity.
Qed.

(** X3.  When the loop answers [False], it ran its whole list and every
    run returned a result that carries an error. *)
Theorem try_in_order_false_inv (sandbox : H) (commands : list string) (w w' : W)
    (t : list Event) :
  try_in_order sdk sandbox commands w = (Ok false, w', t) →
  runs_of t = commands
  ∧ every_run_fails sdk sandbox commands w
  ∧ ∀ command x, EvRun command x ∈ t → ∃ execution, x = Ok execution ∧ error execution ≠ None.
Proof.
  revert w t. induction commands as [|command rest IH]; intros w t Hloop.
  - cbn in Hloop. injection Hloop as <- <-.
    split_and!; [done|done|]. intros command x Hin. by apply elem_of_nil in Hin.
  - rewrite try_in_order_cons in Hloop.
    destruct (commands_run sdk sandbox command w) as [[execution|exc] w1] eqn:Hrun;
      [|discriminate].
    destruct (_execution_failed execution) eqn:Hfailed; [|discriminate].
    destruct (try_in_order sdk sandbox rest w1) as [[r w2] t2] eqn:Hrest.
    injection Hloop as -> -> <-.
    destruct (IH _ _ Hrest) as (Hruns & Hfail & Herrors).
    apply execution_failed_iff in Hfailed.
    split_and!.
    + rewrite runs_of_attempt, Hruns. reflexivity.
    + cbn. eauto 6.
    + intros c x Hin.
      change (EvRun c x ∈ (EvRun command (Ok execution) :: log_events execution) ++ t2) in Hin.
      apply elem_of_app in Hin as [Hin|Hin]; [|by eapply Herrors].
      apply elem_of_cons in Hin as [Hin|Hin]; [simplify_eq; eauto|].
      apply log_events_prints in Hin as [line Hin]. discriminate.
Qed.

(** X4.  When the loop answers [True], its last attempt is the one that
    returned without error, followed by its log lines only; every
    attempt before it returned a result that carries an error. *)
Theorem try_in_order_true_inv (sandbox : H) (commands : list string) (w w' : W)
    (t : list Event) :
  try_in_order sdk sandbox commands w = (Ok true, w', t) →
  ∃ pre command execution,
    t = pre ++ EvRun command (Ok execution) :: log_events execution
    ∧ error execution = None
    ∧ runs_of pre ++ [command] `prefix_of` commands
    ∧ ∀ c x, EvRun c x ∈ pre → ∃ e, x = Ok e ∧ error e ≠ None.
Proof.
  revert w t. induction commands as [|command rest IH]; intros w t Hloop.
  - cbn in Hloop. discriminate.
  - rewrite try_in_order_cons in Hloop.
    destruct (commands_run sdk sandbox command w) as [[execution|exc] w1] eqn:Hrun;
      [|discriminate].
    destruct (_execution_failed execution) eqn:Hfailed.
    + destruct (try_in_order sdk sandbox rest w1) as [[r w2] t2] eqn:Hrest.
      injection Hloop as -> -> <-.
      destruct (IH _ _ Hrest) as (pre & c & e & -> & Herr & Hpre & Herrors).
      apply execution_failed_iff in Hfailed.
      exists ((EvRun command (Ok execution) :: log_events execution) ++ pre), c, e.
      split_and!.
      * rewrite <- app_assoc. reflexivity.
      * done.
      * cbn [app]. rewrite runs_of_attempt. cbn. by apply prefix_cons.
      * intros c' x Hin.
        apply elem_of_app in Hin as [Hin|Hin]; [|by eapply Herrors].
        apply elem_of_cons in Hin as [Hin|Hin]; [simplify_eq; eauto|].
        apply log_events_prints in Hin as [line Hin]. discriminate.
    + injection Hloop as <- <-.
      apply execution_failed_false in Hfailed.
      exists [], command, execution. split_and!; [done|done| |].
      * cbn. apply prefix_cons, prefix_nil.
      * intros c' x Hin. by apply elem_of_nil in Hin.
Qed.

(** X5.  The loop catches nothing: when it raises, the exception is the
    one its last attempt raised, nothing is printed for that attempt, no
    later candidate is tried, and every attempt before it returned a
    result that carries an error. *)
Theorem try_in_order_raise_inv (sandbox : H) (commands : list string) (w w' : W)
    (t : list Event) (exc : PyExc) :
  try_in_order sdk sandbox commands w = (Raise exc, w', t) →
  ∃ pre command,
    t = pre ++ [EvRun command (Raise exc)]
    ∧ runs_of pre ++ [command] `prefix_of` commands
    ∧ ∀ c x, EvRun c x ∈ pre → ∃ e, x = Ok e ∧ error e ≠ None.
Proof.
  revert w t. induction commands as [|command rest IH]; intros w t Hloop.
  - cbn in Hloop. discriminate.
  - rewrite try_in_order_cons in Hloop.
    destruct (commands_run sdk sandbox command w) as [[execution|exc'] w1] eqn:Hrun.
    + destruct (_execution_failed execution) eqn:Hfailed; [|discriminate].
      destruct (try_in_order sdk sandbox rest w1) as [[r w2] t2] eqn:Hrest.
      injection Hloop as -> -> <-.
      destruct (IH _ _ Hrest) as (pre & c & -> & Hpre & Herrors).
      apply execution_failed_iff in Hfailed.
      exists ((EvRun command (Ok execution) :: log_events execution) ++ pre), c.
      split_and!.
      * rewrite <- app_assoc. reflexivity.
      * cbn [app]. rewrite runs_of_attempt. cbn. by apply prefix_cons.
      * intros c' x Hin.
        apply elem_of_app in Hin as [Hin|Hin]; [|by eapply Herrors].
        apply elem_of_cons in Hin as [Hin|Hin]; [simplify_eq; eauto|].
        apply log_events_prints in Hin as [line Hin]. discriminate.
    + injection Hloop as -> <- <-.
      exists [], command. split_and!; [done| |].
      * cbn. apply prefix_cons, prefix_nil.
      * intros c' x Hin. by apply elem_of_nil in Hin.
Qed.

End FallbackMore.

(** ** More on the runs of [main] *)

(** Finds an event in an explicit trace, trying every sub-trace. *)
Ltac search_event :=
  first [ eassumption
        | apply list_elem_of_here
        | apply list_elem_of_further; search_event
        | apply elem_of_app; left; search_event
        | apply elem_of_app; right; search_event ].

Section MainMore.

Context {W H : Type} (sdk : Sdk W H).

(** X7.  In a run of [main] that reaches the install step (the bootstrap
    answered [True]), when [_install_requirements] answers [False] the
    run prints the install failure and leaves the scope with no
    exception pending: [train.py] is not written, the training command
    is not run, nothing is read back and [kill] is not called. *)
Theorem install_failure_aborts
    (host : Host) (w0 w1 w2 w3 w4 w5 : W) (sandbox : H) (req : string)
    (tb ti : list Event) :
  Sandbox_create sdk (sandbox_image host) (connection_config host) (sandbox_env host) w0
  = (Ok sandbox, w1) →
  aenter sdk sandbox w1 = (Ok (), w2) →
  requirements_txt host = Ok req →
  files_write_file sdk sandbox "requirements.txt" req w2 = (Ok (), w3) →
  _ensure_pip sdk sandbox w3 = (Ok true, w4, tb) →
  _install_requirements sdk sandbox w4 = (Ok false, w5, ti) →
  ∃ x,
    outcome_of (main sdk host w0) = scope_result x (Ok ())
    ∧ trace_of (main sdk host w0)
      = ([ EvCreate (sandbox_image host) (connection_config host) (sandbox_env host) (Ok ());
           EvEnter (Ok ());
           EvWriteFile "requirements.txt" req (Ok ()) ]
         ++ tb ++ ti
         ++ [ EvPrint "Failed to install RL dependencies inside the sandbox.";
              EvExit None x ])
    ∧ (∀ content r, EvWriteFile "train.py" content r ∉ trace_of (main sdk host w0))
    ∧ (∀ r, EvRun train_command r ∉ trace_of (main sdk host w0))
    ∧ (∀ path r, EvReadFile path r ∉ trace_of (main sdk host w0))
    ∧ (∀ k, EvKill k ∉ trace_of (main sdk host w0)).
Proof.
  intros Hcreate Henter Hreq Hwrite Hpip Hinstall.
  destruct (main sdk host w0) as [[r0 wf] t] eqn:Hmain.
  unfold trace_of, outcome_of; cbn [fst snd].
  expose_main Hmain.
  rewrite Hcreate in Hmain; tidy Hmain.
  rewrite Henter, Hreq in Hmain; tidy Hmain.
  rewrite Hwrite in Hmain; tidy Hmain.
  rewrite Hpip in Hmain; tidy Hmain.
  rewrite Hinstall in Hmain; tidy Hmain.
  destruct (aexit sdk sandbox None w5) as [x w6] eqn:Hexit.
  injection Hmain as <- <- <-.
  exists x. split_and!.
  - reflexivity.
  - cbn [app]. rewrite <- !app_assoc. reflexivity.
  - intros content r Hev. in_trace Hev; simplify_eq.
  - intros r Hev. in_trace Hev; simplify_eq; wrong_list.
  - intros path r Hev. in_trace Hev; simplify_eq.
  - intros k Hev. in_trace Hev; simplify_eq.
Qed.

(** X8.  [kill] is called only at the end of a complete run: in every run
    of [main] where it is called, the training command returned without
    error, [training_summary.json] was read (the read returned, or
    raised an instance of [Exception]), and the call of [kill] is
    followed by the exit of the scope only.  On every earlier way out of
    [main], teardown is left to the exit of the scope. *)
Theorem kill_only_after_summary_read (host : Host) (w0 : W) (k : Result unit) :
  EvKill k ∈ trace_of (main sdk host w0) →
  (∃ execution,
     EvRun train_command (Ok execution) ∈ trace_of (main sdk host w0)
     ∧ error execution = None)
  ∧ (∃ x,
       EvReadFile "training_summary.json" x ∈ trace_of (main sdk host w0)
       ∧ ∀ exc, x = Raise exc → is_Exception exc = true)
  ∧ ∃ y,
      outcome_of (main sdk host w0) = scope_result y k
      ∧ ∃ pre, trace_of (main sdk host w0) = pre ++ [EvKill k; EvExit (pending_of k) y].
Proof.
  destruct (main sdk host w0) as [[r0 wf] t] eqn:Hmain.
  unfold trace_of, outcome_of; cbn [fst snd]. intros Hev.
  main_cases Hmain; in_trace Hev; simplify_eq.
  all: apply execution_failed_false in Hfailed.
  all: split_and!;
    [ exists train_exec; split; [search_event|done]
    | eexists; split; [search_event|intros ? ?; by simplify_eq]
    | eexists; split; [reflexivity|ends_with_exit] ].
Qed.

(** X9.  In every run of [main], a file written to the sandbox is either
    [requirements.txt], with the text of the host's manifest unchanged,
    or [train.py], with the text of [_training_script]; the only file
    read is [training_summary.json]; every command run is a bootstrap
    command, an install command or the training command. *)
Theorem files_and_commands_of_main (host : Host) (w0 : W) :
  (∀ path content r,
     EvWriteFile path content r ∈ trace_of (main sdk host w0) →
     (path = "requirements.txt" ∧ requirements_txt host = Ok content)
     ∨ (path = "train.py" ∧ content = _training_script ()))
  ∧ (∀ path x,
       EvReadFile path x ∈ trace_of (main sdk host w0) → path = "training_summary.json")
  ∧ (∀ command x,
       EvRun command x ∈ trace_of (main sdk host w0) →
       command ∈ bootstrap_commands ∨ command ∈ install_commands ∨ command = train_command).
Proof.
  destruct (main sdk host w0) as [[r0 wf] t] eqn:Hmain.
  unfold trace_of; cbn [snd]. split_and!.
  - intros path content r Hev.
    main_cases Hmain; in_trace Hev; simplify_eq; by auto.
  - intros path x Hev.
    main_cases Hmain; in_trace Hev; by simplify_eq.
  - intros command x Hev.
    main_cases Hmain; in_trace Hev; simplify_eq; by auto.
Qed.

(** X10.  When the manifest cannot be read on the host, the sandbox has
    already been created and the scope entered: nothing is written or
    run, the scope is left with the exception pending, and [main] raises
    it unless leaving the scope decides otherwise. *)
Theorem unreadable_manifest
    (host : Host) (w0 w1 w2 : W) (sandbox : H) (exc : PyExc) :
  Sandbox_create sdk (sandbox_image host) (connection_config host) (sandbox_env host) w0
  = (Ok sandbox, w1) →
  aenter sdk sandbox w1 = (Ok (), w2) →
  requirements_txt host = Raise exc →
  ∃ x,
    outcome_of (main sdk host w0) = scope_result x (Raise exc)
    ∧ trace_of (main sdk host w0)
      = [ EvCreate (sandbox_image host) (connection_config host) (sandbox_env host) (Ok ());
          EvEnter (Ok ());
          EvExit (Some exc) x ]
    ∧ (x = Ok false → outcome_of (main sdk host w0) = Raise exc).
Proof.
  intros Hcreate Henter Hreq.
  destruct (main sdk host w0) as [[r0 wf] t] eqn:Hmain.
  unfold trace_of, outcome_of; cbn [fst snd].
  expose_main Hmain.
  rewrite Hcreate in Hmain; tidy Hmain.
  rewrite Henter, Hreq in Hmain; tidy Hmain.
  destruct (aexit sdk sandbox (Some exc) w2) as [x w3] eqn:Hexit.
  injection Hmain as <- <- <-.
  exists x. split_and!; [reflexivity|reflexivity|]. by intros ->.
Qed.

(** X11.  When the sandbox cannot be created, or its scope cannot be
    entered, [main] raises that exception at once: nothing is written,
    run, read or killed, and no scope is left. *)
Theorem creation_failure_stops (host : Host) (w0 : W) :
  EvEnter (Ok ()) ∉ trace_of (main sdk host w0) →
  ∃ exc,
    outcome_of (main sdk host w0) = Raise exc
    ∧ (trace_of (main sdk host w0)
       = [ EvCreate (sandbox_image host) (connection_config host) (sandbox_env host)
             (Raise exc) ]
       ∨ trace_of (main sdk host w0)
         = [ EvCreate (sandbox_image host) (connection_config host) (sandbox_env host)
               (Ok ());
             EvEnter (Raise exc) ]).
Proof.
  destruct (main sdk host w0) as [[r0 wf] t] eqn:Hmain.
  unfold trace_of, outcome_of; cbn [fst snd]. intros Hnot.
  main_cases Hmain.
  all: try (exfalso; apply Hnot; search_event).
  all: eexists; split; [reflexivity|]; by auto.
Qed.

End MainMore.

(** ** The scope and the sequence of commands *)

Lemma exits_of_app (t1 t2 : list Event) :
  exits_of (t1 ++ t2) = exits_of t1 ++ exits_of t2.
Proof.
  induction t1 as [|ev t1 IH]; [reflexivity|].
  destruct ev; cbn; rewrite ?IH; reflexivity.
Qed.

Lemma exits_of_none (t : list Event) :
  (∀ ev, ev ∈ t → (∃ command x, ev = EvRun command x) ∨ (∃ line, ev = EvPrint line)) →
  exits_of t = [].
Proof.
  induction t as [|ev t IH]; intros Hall; [reflexivity|].
  destruct (Hall ev) as [(c & x & ->)|(line & ->)]; [apply list_elem_of_here| |];
    cbn; apply IH; intros ev' Hin; apply Hall; by apply list_elem_of_further.
Qed.

Lemma exits_of_log_events (execution : Execution) : exits_of (log_events execution) = [].
Proof.
  apply exits_of_none. intros ev Hin. right. by apply log_events_prints in Hin.
Qed.

Lemma exits_of_loop {W H} (sdk : Sdk W H) (sandbox : H) (commands : list string)
    (w w' : W) (r : Result bool) (t : list Event) :
  try_in_order sdk sandbox commands w = (r, w', t) → exits_of t = [].
Proof.
  intros Hloop. apply exits_of_none. intros ev Hin.
  destruct (try_in_order_events _ _ _ _ _ _ _ _ Hloop Hin) as [(c & x & -> & _)|Hp]; eauto.
Qed.

Lemma prefix_sublist {A} (l1 l2 : list A) : l1 `prefix_of` l2 → l1 `sublist_of` l2.
Proof. intros [k ->]. by apply sublist_inserts_r. Qed.

Lemma last_of_suffix {A} (x : A) (l : list A) : [x] `suffix_of` l → last l = Some x.
Proof. intros [k ->]. apply last_snoc. Qed.

(** Computes the exits of an explicit trace. *)
Ltac exits_of_trace :=
  repeat first
    [ progress cbn [exits_of app]
    | rewrite exits_of_app
    | rewrite exits_of_log_events
    | match goal with
      | Hrun : _ensure_pip _ _ _ = (_, _, ?t) |- context [exits_of ?t] =>
          rewrite (exits_of_loop _ _ _ _ _ _ _ Hrun)
      | Hrun : _install_requirements _ _ _ = (_, _, ?t) |- context [exits_of ?t] =>
          rewrite (exits_of_loop _ _ _ _ _ _ _ Hrun)
      end ].

(** Computes the commands run of an explicit trace. *)
Ltac runs_of_trace :=
  repeat first
    [ progress cbn [runs_of app]
    | rewrite runs_of_app
    | rewrite runs_of_log_events
    | rewrite app_nil_r ].

Section Scope.

Context {W H : Type} (sdk : Sdk W H).

(** X12.  In every run of [main] that entered the scope of the sandbox,
    the scope is left exactly once, as the last event of the run,
    whatever made the body end; what [main] gives is decided by that
    exit: the exception [__aexit__] raised, else the pending exception of
    the body unless [__aexit__] returned a true value. *)
Theorem scope_is_left_once (host : Host) (w0 : W) :
  EvEnter (Ok ()) ∈ trace_of (main sdk host w0) →
  ∃ pending y,
    last (trace_of (main sdk host w0)) = Some (EvExit pending y)
    ∧ exits_of (trace_of (main sdk host w0)) = [(pending, y)]
    ∧ outcome_of (main sdk host w0) = scope_result y (raised pending).
Proof.
  destruct (main sdk host w0) as [[r0 wf] t] eqn:Hmain.
  unfold trace_of, outcome_of; cbn [fst snd]. intros Hev.
  main_cases Hmain; in_trace Hev; simplify_eq.
  all: eexists _, _; split_and!;
    [ apply last_of_suffix;
      repeat first [ reflexivity | apply suffix_cons_r | apply suffix_app_r ]
    | exits_of_trace; reflexivity
    | try reflexivity ].
  all: by destruct k as [[]|].
Qed.

(** X13.  In every run of [main] the commands run are, in order, some of
    the bootstrap commands, then some of the install commands, then
    possibly the training command: no command runs twice, an install
    command never precedes a bootstrap command, and at most eight
    commands run. *)
Theorem commands_of_main_in_order (host : Host) (w0 : W) :
  runs_of (trace_of (main sdk host w0))
    `sublist_of` bootstrap_commands ++ install_commands ++ [train_command]
  ∧ length (runs_of (trace_of (main sdk host w0))) ≤ 8.
Proof.
  assert (Hsub : runs_of (trace_of (main sdk host w0))
                   `sublist_of` bootstrap_commands ++ install_commands ++ [train_command]).
  { destruct (main sdk host w0) as [[r0 wf] t] eqn:Hmain.
    unfold trace_of; cbn [snd].
    main_cases Hmain; runs_of_trace; try apply sublist_nil_l.
    all: try (apply prefix_sublist, prefix_app_r; by eapply (runs_prefix sdk)).
    all: apply sublist_app; [apply prefix_sublist; by eapply (runs_prefix sdk)|].
    all: try (apply prefix_sublist, prefix_app_r; by eapply (runs_prefix sdk)).
    all: apply sublist_app; [apply prefix_sublist; by eapply (runs_prefix sdk)|].
    all: first [ apply sublist_nil_l | reflexivity ]. }
  split; [exact Hsub|]. apply sublist_length in Hsub. exact Hsub.
Qed.

(** X14.  Every run of [main] starts by creating one sandbox, and creates
    no other: with the image of [SANDBOX_IMAGE], the domain of
    [SANDBOX_DOMAIN] and the key of [SANDBOX_API_KEY] (or, when unset,
    the default image, the default domain and no key), a request timeout
    of ten minutes, and an environment whose only variable is
    [RL_TIMESTEPS] (["5000"] when unset on the host). *)
Theorem sandbox_created_once (host : Host) (w0 : W) :
  ∃ c rest,
    trace_of (main sdk host w0)
    = EvCreate (default "opensandbox/code-interpreter:latest" (environ host !! "SANDBOX_IMAGE"))
        {| domain := default "localhost:8080" (environ host !! "SANDBOX_DOMAIN");
           api_key := environ host !! "SANDBOX_API_KEY";
           request_timeout := {| total_seconds := 600 |} |}
        {[ "RL_TIMESTEPS" := default "5000" (environ host !! "RL_TIMESTEPS") ]}
        c
      :: rest
    ∧ ∀ image config env r, EvCreate image config env r ∉ rest.
Proof.
  destruct (main sdk host w0) as [[r0 wf] t] eqn:Hmain.
  unfold trace_of; cbn [snd].
  main_cases Hmain; eexists _, _; (split; [reflexivity|]).
  all: intros image config env r Hev; in_trace Hev; simplify_eq.
Qed.

End Scope.

(** ** Command wrapping *)

Lemma append_inv_head (p a b : string) : p +:+ a = p +:+ b → a = b.
Proof.
  induction p as [|c p IH]; cbn [String.append]; [done|].
  intros Heq. injection Heq as Heq. auto.
Qed.

Lemma length_append (a b : string) :
  String.length (a +:+ b) = (String.length a + String.length b)%nat.
Proof.
  induction a as [|c a IH]; [done|]. exact (f_equal S IH).
Qed.

Lemma append_inv_tail (a b s : string) : a +:+ s = b +:+ s → a = b.
Proof.
  revert b. induction a as [|c a IH]; intros [|d b] Heq.
  - done.
  - apply (f_equal String.length) in Heq. rewrite !length_append in Heq. simpl in Heq. lia.
  - apply (f_equal String.length) in Heq. rewrite !length_append in Heq. simpl in Heq. lia.
  - change (String c (a +:+ s) = String d (b +:+ s)) in Heq.
    injection Heq as -> Heq. f_equal. by apply IH.
Qed.

Lemma prefix_quote (c : Ascii.ascii) (s : string) :
  String.prefix quote (String c s) = if Ascii.ascii_dec quote_char c then true else false.
Proof.
  change (String.prefix quote (String c s))
    with (if Ascii.ascii_dec quote_char c then String.prefix "" s else false).
  destruct (Ascii.ascii_dec quote_char c); [|reflexivity]. by destruct s.
Qed.

Lemma occurrences_quote_append (a b : string) :
  Py.occurrences quote (a +:+ b)
  = (Py.occurrences quote a + Py.occurrences quote b)%nat.
Proof.
  induction a as [|c a IH]; [reflexivity|].
  change (Py.occurrences quote (String c a +:+ b))
    with ((if String.prefix quote (String c (a +:+ b)) then 1 else 0)
          + Py.occurrences quote (a +:+ b))%nat.
  change (Py.occurrences quote (String c a))
    with ((if String.prefix quote (String c a) then 1 else 0)
          + Py.occurrences quote a)%nat.
  rewrite IH, !prefix_quote. lia.
Qed.

(** X15.  [_with_python_env] wraps distinct commands into distinct shell
    lines, each a [bash -lc] call that sources the interpreter
    environment first and is 104 characters longer than the command. *)
Theorem with_python_env_injective (a b : string) :
  _with_python_env a = _with_python_env b →
  a = b
  ∧ String.length (_with_python_env a) = (String.length a + 104)%nat
  ∧ String.prefix "bash -lc 'source /opt/opensandbox/code-interpreter-env.sh "
      (_with_python_env a) = true.
Proof.
  intros Heq. split_and!.
  - unfold _with_python_env in Heq.
    do 4 apply append_inv_head in Heq. by apply append_inv_tail in Heq.
  - unfold _with_python_env. rewrite !length_append. simpl. lia.
  - reflexivity.
Qed.

(** X16.  [_with_python_env] puts the command between two single quotes
    and escapes nothing: the wrapped line has exactly two quote
    characters more than the command, so a command that holds a single
    quote ends the quoted argument of [bash -lc] early. *)
Theorem with_python_env_does_not_escape (command : string) :
  Py.occurrences quote (_with_python_env command)
  = (Py.occurrences quote command + 2)%nat.
Proof.
  unfold _with_python_env. rewrite !occurrences_quote_append.
  change (Py.occurrences quote "bash -lc '") with 1%nat.
  change (Py.occurrences quote "source /opt/opensandbox/code-interpreter-env.sh ") with 0%nat.
  change (Py.occurrences quote "python ${PYTHON_VERSION:-3.14} >/dev/null ") with 0%nat.
  change (Py.occurrences quote "&& ") with 0%nat.
  change (Py.occurrences quote "'") with 1%nat.
  lia.
Qed.

(** ** The added properties on sample collaborators *)

Lemma try_in_order_false_inv_witness :
  let sdk := Mock.sdk (λ _, true) (Ok "{}") in
  let t := trace_of (try_in_order sdk () install_commands []) in
  runs_of t = install_commands
  ∧ every_run_fails sdk () install_commands []
  ∧ ∀ command x, EvRun command x ∈ t → ∃ execution, x = Ok execution ∧ error execution ≠ None.
Proof.
  apply (try_in_order_false_inv (Mock.sdk (λ _, true) (Ok "{}")) () install_commands [] []).
  reflexivity.
Defined.

Lemma try_in_order_true_inv_witness :
  let sdk := Mock.sdk (λ command,
                bool_decide (command = _with_python_env "python3 -m pip --version"))
               (Ok "{}") in
  let t := trace_of (try_in_order sdk () bootstrap_commands []) in
  ∃ pre command execution,
    t = pre ++ EvRun command (Ok execution) :: log_events execution
    ∧ error execution = None
    ∧ runs_of pre ++ [command] `prefix_of` bootstrap_commands
    ∧ ∀ c x, EvRun c x ∈ pre → ∃ e, x = Ok e ∧ error e ≠ None.
Proof.
  apply (try_in_order_true_inv
           (Mock.sdk (λ command,
               bool_decide (command = _with_python_env "python3 -m pip --version"))
              (Ok "{}")) () bootstrap_commands [] []).
  reflexivity.
Defined.

Lemma try_in_order_raise_inv_witness :
  let sdk := Faulty.sdk false (λ _, true) in
  let t := trace_of (try_in_order sdk () install_commands []) in
  ∃ pre command,
    t = pre ++ [EvRun command (Raise Faulty.timeout)]
    ∧ runs_of pre ++ [command] `prefix_of` install_commands
    ∧ ∀ c x, EvRun c x ∈ pre → ∃ e, x = Ok e ∧ error e ≠ None.
Proof.
  apply (try_in_order_raise_inv (Faulty.sdk false (λ _, true)) () install_commands [] []).
  reflexivity.
Defined.

Lemma install_failure_aborts_witness :
  let sdk := Mock.sdk (λ command, bool_decide (command ∈ install_commands)) (Ok "{}") in
  let host := Mock.host None in
  let files := [("requirements.txt", "stable-baselines3")] in
  ∃ x,
    outcome_of (main sdk host []) = scope_result x (Ok ())
    ∧ trace_of (main sdk host [])
      = ([ EvCreate (sandbox_image host) (connection_config host) (sandbox_env host) (Ok ());
           EvEnter (Ok ());
           EvWriteFile "requirements.txt" "stable-baselines3" (Ok ()) ]
         ++ trace_of (_ensure_pip sdk () files)
         ++ trace_of (_install_requirements sdk () files)
         ++ [ EvPrint "Failed to install RL dependencies inside the sandbox.";
              EvExit None x ])
    ∧ (∀ content r, EvWriteFile "train.py" content r ∉ trace_of (main sdk host []))
    ∧ (∀ r, EvRun train_command r ∉ trace_of (main sdk host []))
    ∧ (∀ path r, EvReadFile path r ∉ trace_of (main sdk host []))
    ∧ (∀ k, EvKill k ∉ trace_of (main sdk host [])).
Proof.
  apply (install_failure_aborts
           (Mock.sdk (λ command, bool_decide (command ∈ install_commands)) (Ok "{}"))
           (Mock.host None) [] [] []
           [("requirements.txt", "stable-baselines3")]
           [("requirements.txt", "stable-baselines3")]
           [("requirements.txt", "stable-baselines3")] () "stable-baselines3").
  - reflexivity.
  - reflexivity.
  - reflexivity.
  - reflexivity.
  - vm_compute. reflexivity.
  - vm_compute. reflexivity.
Defined.

Lemma kill_only_after_summary_read_witness :
  let sdk := Mock.sdk (λ _, false) (Ok "{}") in
  let host := Mock.host None in
  (∃ execution,
     EvRun train_command (Ok execution) ∈ trace_of (main sdk host [])
     ∧ error execution = None)
  ∧ (∃ x,
       EvReadFile "training_summary.json" x ∈ trace_of (main sdk host [])
       ∧ ∀ exc, x = Raise exc → is_Exception exc = true)
  ∧ ∃ y,
      outcome_of (main sdk host []) = scope_result y (Ok ())
      ∧ ∃ pre, trace_of (main sdk host []) = pre ++ [EvKill (Ok ()); EvExit None y].
Proof.
  apply (kill_only_after_summary_read (Mock.sdk (λ _, false) (Ok "{}")) (Mock.host None)
           [] (Ok ())).
  apply (bool_decide_eq_true_1 (_ ∈ _)). vm_compute. reflexivity.
Defined.

Lemma unreadable_manifest_witness :
  let sdk := Mock.sdk (λ _, false) (Ok "{}") in
  ∃ x,
    outcome_of (main sdk Faulty.host []) = scope_result x (Raise Faulty.missing)
    ∧ trace_of (main sdk Faulty.host [])
      = [ EvCreate (sandbox_image Faulty.host) (connection_config Faulty.host)
            (sandbox_env Faulty.host) (Ok ());
          EvEnter (Ok ());
          EvExit (Some Faulty.missing) x ]
    ∧ (x = Ok false → outcome_of (main sdk Faulty.host []) = Raise Faulty.missing).
Proof.
  apply (unreadable_manifest (Mock.sdk (λ _, false) (Ok "{}")) Faulty.host [] [] [] ()
           Faulty.missing).
  - reflexivity.
  - reflexivity.
  - reflexivity.
Defined.

Lemma creation_failure_stops_witness :
  let sdk := Faulty.sdk true (λ _, false) in
  let host := Mock.host None in
  ∃ exc,
    outcome_of (main sdk host []) = Raise exc
    ∧ (trace_of (main sdk host [])
       = [ EvCreate (sandbox_image host) (connection_config host) (sandbox_env host)
             (Raise exc) ]
       ∨ trace_of (main sdk host [])
         = [ EvCreate (sandbox_image host) (connection_config host) (sandbox_env host)
               (Ok ());
             EvEnter (Raise exc) ]).
Proof.
  apply (creation_failure_stops (Faulty.sdk true (λ _, false)) (Mock.host None) []).
  apply (bool_decide_eq_false_1 (_ ∈ _)). vm_compute. reflexivity.
Defined.

Lemma scope_is_left_once_witness :
  let sdk := Mock.sdk (λ _, true) (Ok "{}") in
  let host := Mock.host None in
  ∃ pending y,
    last (trace_of (main sdk host [])) = Some (EvExit pending y)
    ∧ exits_of (trace_of (main sdk host [])) = [(pending, y)]
    ∧ outcome_of (main sdk host []) = scope_result y (raised pending).
Proof.
  apply (scope_is_left_once (Mock.sdk (λ _, true) (Ok "{}")) (Mock.host None) []).
  apply (bool_decide_eq_true_1 (_ ∈ _)). vm_compute. reflexivity.
Defined.

Lemma with_python_env_injective_witness :
  "python3 train.py" = "python3 train.py"
  ∧ String.length (_with_python_env "python3 train.py")
    = (String.length "python3 train.py" + 104)%nat
  ∧ String.prefix "bash -lc 'source /opt/opensandbox/code-interpreter-env.sh "
      (_with_python_env "python3 train.py") = true.
Proof.
  apply (with_python_env_injective "python3 train.py" "python3 train.py").
  reflexivity.
Defined.
